(** * github-cdn-worker: a shallow embedding of the Cloudflare Worker

    The repository holds two near-identical scripts.  [cdn-worker.js] fixes
    the repository owner through the [GITHUB_OWNER] binding; the other script
    takes the owner from the request path.  Their helper functions
    ([getToken], [handleGitHubError], [applyHeaders], [handleOptions]) are
    textually the same and are embedded once; the two [fetch] handlers and the
    two landing pages live in the modules [FixedOwner] and [OwnerInPath].

    Platform objects are modelled by what the scripts read and write of them:
    a [Headers] object is a finite map keyed by the lower-cased header name,
    a [URL] is its origin, its pathname and its ordered query parameters, a
    [Response] is a status, a status text, headers and a body.  The
    [Response] constructor is embedded with its defaults and with the two
    checks the platform makes on the status: it throws for a status outside
    200..599 and for a body given with a null-body status.  The one awaited
    effect, the
    outbound [fetch], is a constructor of the [Worker] tree, so that the
    requests a handler issues can be counted and inspected. *)

From Stdlib Require Import Ascii String DecimalString NArith.
From stdpp Require Import gmap strings list fin_maps.

Local Open Scope string_scope.
Local Open Scope N_scope.

(** ** JavaScript values used by the scripts *)

(** A double quote, for the string literals of the source that hold one. *)
Definition dq : string := String (ascii_of_nat 34) EmptyString.

(** [`${n}`] for a number that is a natural integer. *)
Definition number_toString (n : N) : string :=
  NilZero.string_of_uint (N.to_uint n).

(** Truthiness of a value that is a string, [null] or [undefined]. *)
Definition truthy (v : option string) : bool :=
  match v with
  | Some s => negb (String.eqb s "")
  | None => false
  end.

(** [v === s] for such a value against a string literal. *)
Definition strict_eq (v : option string) (s : string) : bool :=
  match v with
  | Some x => String.eqb x s
  | None => false
  end.

(** [a || b] where [a] is a string, [null] or [undefined] and [b] a string. *)
Definition or_else (a : option string) (b : string) : string :=
  match a with
  | Some s => if String.eqb s "" then b else s
  | None => b
  end.

(** ** Headers: names are case-insensitive, kept lower-cased *)

Definition ascii_lower (c : ascii) : ascii :=
  let n := N_of_ascii c in
  if (65 <=? n) && (n <=? 90) then ascii_of_N (n + 32) else c.

Fixpoint lower (s : string) : string :=
  match s with
  | EmptyString => EmptyString
  | String c r => String (ascii_lower c) (lower r)
  end.

Abbreviation Headers := (gmap string string).

Definition headers_get (name : string) (h : Headers) : option string :=
  h !! lower name.

Definition headers_set (name value : string) (h : Headers) : Headers :=
  <[lower name := value]> h.

(** ** URL, Request, Response, environment bindings *)

Record URL := {
  origin : string;
  pathname : string;
  searchParams : list (string * string)
}.

Definition searchParams_has (name : string) (ps : list (string * string)) : bool :=
  existsb (fun p => String.eqb (fst p) name) ps.

Definition searchParams_get (name : string) (ps : list (string * string))
  : option string :=
  option_map snd (List.find (fun p => String.eqb (fst p) name) ps).

Record Request := {
  req_method : string;
  req_url : URL;
  req_headers : Headers
}.

Record Env := {
  GITHUB_OWNER : option string;
  GITHUB_TOKEN : option string;
  ALLOW_QUERY_PARAM_TOKEN : option string;
  CACHE_TIME : option string
}.

(** The literal [{}] passed as environment by [handleOptions]. *)
Definition empty_env : Env :=
  {| GITHUB_OWNER := None; GITHUB_TOKEN := None;
     ALLOW_QUERY_PARAM_TOKEN := None; CACHE_TIME := None |}.

Record Response := {
  status : N;
  statusText : string;
  resp_headers : Headers;
  body : option string
}.

Definition ok (r : Response) : bool :=
  (200 <=? status r) && (status r <=? 299).

(** The first argument of [new Response]: [null], a string, or the body
    stream of another response. *)
Inductive BodyInit :=
| BodyNull
| BodyString (s : string)
| BodyStream (b : option string).

Record ResponseInit := {
  init_status : option N;
  init_statusText : option string;
  init_resp_headers : Headers
}.

(** A thrown JavaScript error, by its message. *)
Record JsError := { message : string }.

(** The statuses with which a response may not have a body. *)
Definition null_body_status (n : N) : bool :=
  (n =? 101) || (n =? 204) || (n =? 205) || (n =? 304).

Definition body_is_null (b : BodyInit) : bool :=
  match b with
  | BodyNull => true
  | BodyString _ => false
  | BodyStream o => match o with None => true | Some _ => false end
  end.

(** The two errors of the constructor.  The wording of the messages is the
    platform's; no property below depends on it. *)
Definition RangeError_status : JsError :=
  {| message := "Responses may only be constructed with status codes in the range 200 to 599, inclusive." |}.

Definition TypeError_null_body : JsError :=
  {| message := "Response with null body status (101, 204, 205, or 304) cannot have a body." |}.

(** The response [new Response(body, init)] builds when it builds one:
    status 200 and an empty status text unless given; a string body brings
    its content type unless the headers name one. *)
Definition make_Response (b : BodyInit) (init : ResponseInit) : Response :=
  let h := init_resp_headers init in
  {| status := default 200 (init_status init);
     statusText := default "" (init_statusText init);
     resp_headers :=
       match b with
       | BodyString _ =>
           match headers_get "Content-Type" h with
           | Some _ => h
           | None => headers_set "Content-Type" "text/plain;charset=UTF-8" h
           end
       | _ => h
       end;
     body :=
       match b with
       | BodyNull => None
       | BodyString s => Some s
       | BodyStream o => o
       end |}.

(** [new Response(body, init)]: a [RangeError] for a status outside
    200..599, a [TypeError] for a body that is not [null] with a null-body
    status, the response otherwise. *)
Definition new_Response (b : BodyInit) (init : ResponseInit)
  : (Response + JsError)%type :=
  let s := default 200 (init_status init) in
  if negb ((200 <=? s) && (s <=? 599)) then inr RangeError_status
  else if negb (body_is_null b) && null_body_status s
  then inr TypeError_null_body
  else inl (make_Response b init).

(** [{ status: n }] *)
Definition init_of_status (n : N) : ResponseInit :=
  {| init_status := Some n; init_statusText := None; init_resp_headers := ∅ |}.

(** [{ headers }] *)
Definition init_of_headers (h : Headers) : ResponseInit :=
  {| init_status := None; init_statusText := None; init_resp_headers := h |}.

(** A response used as the [init] of another one. *)
Definition init_of_response (r : Response) : ResponseInit :=
  {| init_status := Some (status r);
     init_statusText := Some (statusText r);
     init_resp_headers := resp_headers r |}.

(** ** Configuration *)

Module config.

Definition corsOrigin : string := "*".
Definition githubDomain : string := "raw.githubusercontent.com".
Definition defaultCacheTime : N := 86400.

End config.

(** ** Helper functions shared by the two scripts *)

Definition getToken (request : Request) (env : Env) : option string :=
  let headerToken := headers_get "X-GitHub-Token" (req_headers request) in
  if truthy headerToken then headerToken
  else
    let from_env :=
      if truthy (GITHUB_TOKEN env) then GITHUB_TOKEN env else None in
    if strict_eq (ALLOW_QUERY_PARAM_TOKEN env) "true" then
      let url := req_url request in
      if searchParams_has "token" (searchParams url)
      then searchParams_get "token" (searchParams url)
      else from_env
    else from_env.

Definition handleGitHubError (response : Response)
  : (Response + JsError)%type :=
  if status response =? 404 then
    new_Response
      (BodyString "File not found. Check repository, branch, and file path.")
      (init_of_status 404)
  else if (status response =? 401) || (status response =? 403) then
    new_Response
      (BodyString "Access denied. Your token may be invalid or lack permissions.")
      (init_of_status 403)
  else
    new_Response
      (BodyString ("GitHub API error: " +:+ number_toString (status response)
                   +:+ " " +:+ statusText response))
      (init_of_status (status response)).

Definition applyHeaders (headers : Headers) (env : Env) : Headers :=
  let cacheTime :=
    or_else (CACHE_TIME env) (number_toString config.defaultCacheTime) in
  let headers := headers_set "Cache-Control" ("public, max-age=" +:+ cacheTime) headers in
  let headers := headers_set "Access-Control-Allow-Origin" config.corsOrigin headers in
  let headers := headers_set "Access-Control-Allow-Methods" "GET, HEAD, OPTIONS" headers in
  let headers := headers_set "Access-Control-Max-Age" "86400" headers in
  let headers := headers_set "X-Content-Type-Options" "nosniff" headers in
  let headers := headers_set "X-Frame-Options" "DENY" headers in
  headers_set "Referrer-Policy" "strict-origin-when-cross-origin" headers.

Definition handleOptions (request : Request) : (Response + JsError)%type :=
  let headers := applyHeaders ∅ empty_env in
  let headers :=
    headers_set "Access-Control-Allow-Headers"
      (or_else (headers_get "Access-Control-Request-Headers" (req_headers request))
               "X-GitHub-Token, Content-Type")
      headers in
  new_Response BodyNull (init_of_headers headers).

(** ** String operations of the path parser *)

(** [s.split('/')]: the pieces between the separators, empty ones kept;
    the empty string splits into one empty piece. *)
Fixpoint split_on (sep : ascii) (s : string) : list string :=
  match s with
  | EmptyString => [EmptyString]
  | String c r =>
      if Ascii.eqb c sep then EmptyString :: split_on sep r
      else match split_on sep r with
           | x :: xs => String c x :: xs
           | [] => [String c EmptyString]
           end
  end.

(** [s.replace(/^\/+/, '')] *)
Fixpoint strip_leading_slashes (s : string) : string :=
  match s with
  | String c r => if Ascii.eqb c "/" then strip_leading_slashes r else s
  | EmptyString => EmptyString
  end.

(** [parts.join('/')] *)
Definition join (sep : string) (parts : list string) : string :=
  String.concat sep parts.

(** An array element read by destructuring and spliced into a template
    literal: a missing one prints as [undefined]. *)
Definition element (i : nat) (parts : list string) : string :=
  nth i parts "undefined".

(** ** The awaited effect: one tree node per outbound [fetch] *)

(** The second argument of the global [fetch]; both scripts give headers
    only, the method is left to the platform's default. *)
Record RequestInit := {
  init_method : option string;
  init_headers : Headers
}.

(** The request that leaves the worker. *)
Record Outbound := {
  out_url : string;
  out_method : string;
  out_headers : Headers
}.

Definition outbound_of (url : string) (init : RequestInit) : Outbound :=
  {| out_url := url;
     out_method := default "GET" (init_method init);
     out_headers := init_headers init |}.

(** What awaiting the promise of [fetch] gives: a response, or a thrown
    transport error. *)
Inductive FetchOutcome :=
| Resolved (r : Response)
| Rejected (e : JsError).

Inductive Worker (A : Type) : Type :=
| Ret (a : A)
| Throw (e : JsError)
| Fetch (o : Outbound) (k : FetchOutcome -> Worker A).

Arguments Ret {A} a.
Arguments Throw {A} e.
Arguments Fetch {A} o k.

Fixpoint bind {A B : Type} (p : Worker A) (f : A -> Worker B) : Worker B :=
  match p with
  | Ret a => f a
  | Throw e => Throw e
  | Fetch o k => Fetch o (fun r => bind (k r) f)
  end.

Notation "'const' x '<-' 'await' p ; q" := (bind p (fun x => q))
  (at level 10, x name, p at level 100, q at level 200,
   format "'[v' 'const'  x  '<-'  'await'  p ; '/' q ']'").

(** [await fetch(url, init)] *)
Definition await_fetch (url : string) (init : RequestInit) : Worker Response :=
  Fetch (outbound_of url init)
        (fun r => match r with
                  | Resolved resp => Ret resp
                  | Rejected e => Throw e
                  end).

(** [try { p } catch (err) { h err }] *)
Fixpoint try_catch {A : Type} (p : Worker A) (h : JsError -> Worker A) : Worker A :=
  match p with
  | Ret a => Ret a
  | Throw e => h e
  | Fetch o k => Fetch o (fun r => try_catch (k r) h)
  end.

(** Running a handler against an upstream: the outbound requests in the
    order they were issued, and the result. *)
Fixpoint run {A : Type} (upstream : Outbound -> FetchOutcome) (p : Worker A)
  : list Outbound * (A + JsError) :=
  match p with
  | Ret a => ([], inl a)
  | Throw e => ([], inr e)
  | Fetch o k =>
      let '(t, r) := run upstream (k (upstream o)) in (o :: t, r)
  end.

Definition issued {A : Type} (upstream : Outbound -> FetchOutcome) (p : Worker A)
  : list Outbound := fst (run upstream p).

Definition result {A : Type} (upstream : Outbound -> FetchOutcome) (p : Worker A)
  : A + JsError := snd (run upstream p).

(** The headers object literal of the outbound request. *)
Definition authorization_headers (token : option string) : Headers :=
  if truthy token
  then headers_set "Authorization" ("token " +:+ default "" token) ∅
  else ∅.

(** A call that returns or throws, as a step of a handler. *)
Definition completion {A : Type} (c : (A + JsError)%type) : Worker A :=
  match c with
  | inl a => Ret a
  | inr e => Throw e
  end.

(** Steps 4 and 5 of both handlers, after the upstream answered. *)
Definition respond (githubResponse : Response) (env : Env)
  : (Response + JsError)%type :=
  if negb (ok githubResponse) then handleGitHubError githubResponse
  else
    match new_Response (BodyStream (body githubResponse))
                       (init_of_response githubResponse) with
    | inl response =>
        inl {| status := status response;
               statusText := statusText response;
               resp_headers := applyHeaders (resp_headers response) env;
               body := body response |}
    | inr err => inr err
    end.

(** The [catch] clause of both handlers; its [console.error] line is a
    diagnostic and leaves no trace in the response. *)
Definition on_error (err : JsError) : Worker Response :=
  completion
    (new_Response (BodyString ("Proxy request failed: " +:+ message err))
                  (init_of_status 500)).

(** The response of the [catch] clause. *)
Definition failure_response (e : JsError) : Response :=
  make_Response (BodyString ("Proxy request failed: " +:+ message e))
                (init_of_status 500).

(** What a handler answers once the upstream fetch settled: the response of
    steps 4 and 5, or the response of the [catch] clause when the fetch or
    one of those steps threw. *)
Definition settle (outcome : FetchOutcome) (env : Env) : Response :=
  match outcome with
  | Resolved r =>
      match respond r env with
      | inl resp => resp
      | inr e => failure_response e
      end
  | Rejected e => failure_response e
  end.

(** The three classes of inbound requests, as both handlers test them. *)
Definition is_preflight (request : Request) : bool :=
  String.eqb (req_method request) "OPTIONS".

Definition is_root (request : Request) : bool :=
  String.eqb (pathname (req_url request)) "/"
  || String.eqb (pathname (req_url request)) "".

Definition content_path (request : Request) : bool :=
  negb (is_preflight request) && negb (is_root request).

(** A response as the network delivers it: one with a null-body status
    comes without a body. *)
Definition delivered (r : Response) : Prop :=
  null_body_status (status r) = true → body r = None.

(** The header names [applyHeaders] writes. *)
Definition rewritten_names : list string :=
  ["Cache-Control"; "Access-Control-Allow-Origin";
   "Access-Control-Allow-Methods"; "Access-Control-Max-Age";
   "X-Content-Type-Options"; "X-Frame-Options"; "Referrer-Policy"].

(** The three security headers with their fixed values. *)
Definition security_headers (h : Headers) : Prop :=
  headers_get "X-Content-Type-Options" h = Some "nosniff"
  ∧ headers_get "X-Frame-Options" h = Some "DENY"
  ∧ headers_get "Referrer-Policy" h = Some "strict-origin-when-cross-origin".

(** ** [cdn-worker.js]: the owner comes from the configuration *)

Module FixedOwner.

(** The page text, as the bytes of its UTF-8 encoding. *)
Definition landing_html (url_origin : string) : string :=
    "<!DOCTYPE html>
    <html lang=" +:+ dq +:+
    "zh-CN" +:+ dq +:+
    ">
      <head>
        <meta charset=" +:+ dq +:+
    "UTF-8" +:+ dq +:+
    ">
        <meta name=" +:+ dq +:+
    "viewport" +:+ dq +:+
    " content=" +:+ dq +:+
    "width=device-width, initial-scale=1.0" +:+ dq +:+
    ">
        <title>Universal GitHub CDN</title>
        <style>
          body { font-family: -apple-system, BlinkMacSystemFont, " +:+ dq +:+
    "Segoe UI" +:+ dq +:+
    ", Roboto, Helvetica, Arial, sans-serif; max-width: 800px; margin: 2rem auto; padding: 0 1rem; line-height: 1.6; color: #333; }
          h1 { color: #0070f3; border-bottom: 2px solid #f0f0f0; padding-bottom: 0.5rem; }
          code { background: #f1f1f1; padding: 0.2em 0.4em; border-radius: 4px; font-size: 0.9em; }
          .note { background: #fffbe6; padding: 1em; border-left: 4px solid #ffd600; margin: 2rem 0; border-radius: 4px; }
          .note p { margin: 0; }
          li { margin-bottom: 0.5rem; }
        </style>
      </head>
      <body>
        <h1>🚀 Universal GitHub CDN</h1>
        <p>This is a high-performance CDN proxy for GitHub raw content, supporting both public and private repositories.</p>
        <p><strong>使用格式：</strong></p>
        <code>"
    +:+ url_origin +:+
    "/&lt;repo&gt;/&lt;branch&gt;/&lt;path-to-file&gt;</code>
        <div class=" +:+ dq +:+
    "note" +:+ dq +:+
    ">
          <h3>仓库 owner 已隐藏</h3>
          <p>owner（仓库拥有者）由 Worker 环境变量 <code>GITHUB_OWNER</code> 决定，用户无需在链接中填写 owner。</p>
        </div>
        <div class=" +:+ dq +:+
    "note" +:+ dq +:+
    ">
          <h3>访问私有仓库</h3>
          <p>如需访问私有仓库，必须通过以下方式之一提供 GitHub Token（推荐顺序）：</p>
          <ol>
            <li><strong>HTTP Header（推荐）:</strong> 在请求中添加 <code>X-GitHub-Token</code> 头。</li>
            <li><strong>Worker 环境变量:</strong> 在 Worker 设置中配置 <code>GITHUB_TOKEN</code>。</li>
            <li><strong>URL 参数（谨慎使用）:</strong> 在链接后添加 <code>?token=YOUR_TOKEN</code>，需在 Worker 设置中将 <code>ALLOW_QUERY_PARAM_TOKEN</code> 设为 <code>" +:+ dq +:+
    "true" +:+ dq +:+
    "</code>。</li>
          </ol>
        </div>
      </body>
    </html>".

Definition generateLandingPage (url_origin : string)
  : (Response + JsError)%type :=
  new_Response
    (BodyString (landing_html url_origin))
    (init_of_headers
       (headers_set "Cache-Control"
          ("public, max-age=" +:+ number_toString config.defaultCacheTime)
          (headers_set "Content-Type" "text/html;charset=UTF-8" ∅))).

Definition fetch (request : Request) (env : Env) : Worker Response :=
  let pathname := pathname (req_url request) in
  let origin := origin (req_url request) in
  if String.eqb (req_method request) "OPTIONS"
  then completion (handleOptions request)
  else if String.eqb pathname "/" || String.eqb pathname ""
  then completion (generateLandingPage origin)
  else
    try_catch
      (let token := getToken request env in
       let owner := GITHUB_OWNER env in
       if negb (truthy owner) then
         completion
           (new_Response
              (BodyString "GITHUB_OWNER environment variable not set.")
              (init_of_status 500))
       else
         let parts := split_on "/" (strip_leading_slashes pathname) in
         if (length parts <? 3)%nat then
           completion
             (new_Response
                (BodyString "Invalid path. Format: /repo/branch/path-to-file")
                (init_of_status 400))
         else
           let repo := element 0 parts in
           let branch := element 1 parts in
           let fileParts := skipn 2 parts in
           let githubUrl :=
             "https://" +:+ config.githubDomain +:+ "/" +:+ default "" owner
             +:+ "/" +:+ repo +:+ "/" +:+ branch +:+ "/" +:+ join "/" fileParts in
           let headers := authorization_headers token in
           const githubResponse <- await
             await_fetch githubUrl
               {| init_method := None; init_headers := headers |};
           completion (respond githubResponse env))
      on_error.

(** The pieces of the path the handler counts, empty ones included. *)
Definition segments (request : Request) : list string :=
  split_on "/" (strip_leading_slashes (pathname (req_url request))).

(** The non-empty pieces, which is what the specification counts. *)
Definition nonempty_segments (request : Request) : list string :=
  List.filter (fun s => negb (String.eqb s "")) (segments request).

(** The requests that get past the owner and path checks. *)
Definition proxied (request : Request) (env : Env) : bool :=
  content_path request && truthy (GITHUB_OWNER env)
  && negb (length (segments request) <? 3)%nat.

(** The upstream address the handler builds from the segments. *)
Definition upstream_url (request : Request) (env : Env) : string :=
  "https://" +:+ config.githubDomain +:+ "/" +:+ default "" (GITHUB_OWNER env)
  +:+ "/" +:+ element 0 (segments request)
  +:+ "/" +:+ element 1 (segments request)
  +:+ "/" +:+ join "/" (skipn 2 (segments request)).

End FixedOwner.

(** ** The second script: the owner is the first segment of the path *)

Module OwnerInPath.

Definition landing_html (url_origin : string) : string :=
    "<!DOCTYPE html>
    <html lang=" +:+ dq +:+
    "zh-CN" +:+ dq +:+
    ">
      <head>
        <meta charset=" +:+ dq +:+
    "UTF-8" +:+ dq +:+
    ">
        <meta name=" +:+ dq +:+
    "viewport" +:+ dq +:+
    " content=" +:+ dq +:+
    "width=device-width, initial-scale=1.0" +:+ dq +:+
    ">
        <title>Universal GitHub CDN</title>
        <style>
          body { font-family: -apple-system, BlinkMacSystemFont, " +:+ dq +:+
    "Segoe UI" +:+ dq +:+
    ", Roboto, Helvetica, Arial, sans-serif; max-width: 800px; margin: 2rem auto; padding: 0 1rem; line-height: 1.6; color: #333; }
          h1 { color: #0070f3; border-bottom: 2px solid #f0f0f0; padding-bottom: 0.5rem; }
          code { background: #f1f1f1; padding: 0.2em 0.4em; border-radius: 4px; font-size: 0.9em; }
          .note { background: #fffbe6; padding: 1em; border-left: 4px solid #ffd600; margin: 2rem 0; border-radius: 4px; }
          .note p { margin: 0; }
          li { margin-bottom: 0.5rem; }
        </style>
      </head>
      <body>
        <h1>🚀 Universal GitHub CDN</h1>
        <p>This is a high-performance CDN proxy for GitHub raw content, supporting both public and private repositories.</p>
        <p><strong>Usage Format:</strong></p>
        <code>"
    +:+ url_origin +:+
    "/&lt;owner&gt;/&lt;repo&gt;/&lt;branch&gt;/&lt;path-to-file&gt;</code>
        
        <div class=" +:+ dq +:+
    "note" +:+ dq +:+
    ">
          <h3>Accessing Private Repositories</h3>
          <p>To access private repositories, you must provide a GitHub Token in one of the following ways (in order of recommendation):</p>
          <ol>
            <li><strong>HTTP Header (Recommended):</strong> Add an <code>X-GitHub-Token</code> header to your request.</li>
            <li><strong>Worker Environment Variable:</strong> Set a <code>GITHUB_TOKEN</code> secret in the Worker's settings.</li>
            <li><strong>URL Parameter (Use with caution):</strong> Append <code>?token=YOUR_TOKEN</code>. This requires setting the <code>ALLOW_QUERY_PARAM_TOKEN</code> environment variable to <code>" +:+ dq +:+
    "true" +:+ dq +:+
    "</code> in the Worker's settings.</li>
          </ol>
        </div>
      </body>
    </html>".

Definition generateLandingPage (url_origin : string)
  : (Response + JsError)%type :=
  new_Response
    (BodyString (landing_html url_origin))
    (init_of_headers
       (headers_set "Cache-Control"
          ("public, max-age=" +:+ number_toString config.defaultCacheTime)
          (headers_set "Content-Type" "text/html;charset=UTF-8" ∅))).

Definition fetch (request : Request) (env : Env) : Worker Response :=
  let url := req_url request in
  if String.eqb (req_method request) "OPTIONS"
  then completion (handleOptions request)
  else if String.eqb (pathname url) "/" || String.eqb (pathname url) ""
  then completion (generateLandingPage (origin url))
  else
    try_catch
      (let token := getToken request env in
       let githubUrl := "https://" +:+ config.githubDomain +:+ pathname url in
       const githubResponse <- await
         await_fetch githubUrl
           {| init_method := None;
              init_headers := authorization_headers token |};
       completion (respond githubResponse env))
      on_error.

(** The upstream address: the inbound path appended to the host. *)
Definition upstream_url (request : Request) : string :=
  "https://" +:+ config.githubDomain +:+ pathname (req_url request).

End OwnerInPath.

(** ** Concrete requests, bindings and upstreams used in the examples *)

Module Examples.

Definition url_of (path : string) (query : list (string * string)) : URL :=
  {| origin := "https://cdn.example.workers.dev";
     pathname := path; searchParams := query |}.

Definition get_file : Request :=
  {| req_method := "GET";
     req_url := url_of "/site/main/img/logo.png" [];
     req_headers := ∅ |}.

Definition get_file_header_token : Request :=
  {| req_method := "GET";
     req_url := url_of "/site/main/img/logo.png" [("token", "from_query")];
     req_headers := headers_set "X-GitHub-Token" "from_header" ∅ |}.

Definition get_file_query_token : Request :=
  {| req_method := "GET";
     req_url := url_of "/site/main/img/logo.png" [("token", "from_query")];
     req_headers := ∅ |}.

Definition get_file_empty_query_token : Request :=
  {| req_method := "GET";
     req_url := url_of "/site/main/img/logo.png" [("token", "")];
     req_headers := ∅ |}.

Definition head_file : Request :=
  {| req_method := "HEAD";
     req_url := url_of "/site/main/img/logo.png" [];
     req_headers := ∅ |}.

Definition get_trailing_slash : Request :=
  {| req_method := "GET";
     req_url := url_of "/site/main/" [];
     req_headers := ∅ |}.

Definition get_short_path : Request :=
  {| req_method := "GET";
     req_url := url_of "/site/main" [];
     req_headers := ∅ |}.

Definition get_root : Request :=
  {| req_method := "GET"; req_url := url_of "/" []; req_headers := ∅ |}.

Definition preflight : Request :=
  {| req_method := "OPTIONS";
     req_url := url_of "/site/main/img/logo.png" [];
     req_headers := ∅ |}.

Definition env_owner_only : Env :=
  {| GITHUB_OWNER := Some "octocat"; GITHUB_TOKEN := None;
     ALLOW_QUERY_PARAM_TOKEN := None; CACHE_TIME := None |}.

Definition env_static_token : Env :=
  {| GITHUB_OWNER := Some "octocat"; GITHUB_TOKEN := Some "from_env";
     ALLOW_QUERY_PARAM_TOKEN := None; CACHE_TIME := None |}.

Definition env_query_allowed : Env :=
  {| GITHUB_OWNER := Some "octocat"; GITHUB_TOKEN := Some "from_env";
     ALLOW_QUERY_PARAM_TOKEN := Some "true"; CACHE_TIME := None |}.

Definition env_one_hour : Env :=
  {| GITHUB_OWNER := Some "octocat"; GITHUB_TOKEN := None;
     ALLOW_QUERY_PARAM_TOKEN := None; CACHE_TIME := Some "3600" |}.

Definition upstream_headers : Headers :=
  headers_set "Content-Type" "image/png"
    (headers_set "ETag" "W/abc"
       (headers_set "Cache-Control" "max-age=300"
          (headers_set "X-Frame-Options" "SAMEORIGIN" ∅))).

Definition png_200 : Response :=
  {| status := 200; statusText := "OK";
     resp_headers := upstream_headers; body := Some "PNG-bytes" |}.


Definition bad_gateway_502 : Response :=
  {| status := 502; statusText := "Bad Gateway";
     resp_headers := ∅; body := Some "<html>upstream page</html>" |}.

Definition answers (r : Response) : Outbound -> FetchOutcome :=
  fun _ => Resolved r.

End Examples.

(** ** Notions the further properties are stated with *)

(** How often a character occurs in a string. *)
Fixpoint count_char (c : ascii) (s : string) : nat :=
  match s with
  | EmptyString => 0%nat
  | String a r => if Ascii.eqb a c then S (count_char c r) else count_char c r
  end.

(** A string of [n] slashes. *)
Fixpoint slashes (n : nat) : string :=
  match n with
  | O => EmptyString
  | S m => String "/" (slashes m)
  end.

(** [hay] holds [needle] as a substring. *)
Definition contains (needle hay : string) : Prop :=
  ∃ pre post, hay = pre +:+ needle +:+ post.

(** The same request under another path. *)
Definition with_pathname (p : string) (request : Request) : Request :=
  {| req_method := req_method request;
     req_url := {| origin := origin (req_url request);
                   pathname := p;
                   searchParams := searchParams (req_url request) |};
     req_headers := req_headers request |}.

(** The headers of a response built from a string and a status only. *)
Definition plain_text_headers : Headers :=
  headers_set "Content-Type" "text/plain;charset=UTF-8" ∅.

(** The headers [handleOptions] hands to the constructor. *)
Definition preflight_headers (request : Request) : Headers :=
  headers_set "Access-Control-Allow-Headers"
    (or_else (headers_get "Access-Control-Request-Headers" (req_headers request))
             "X-GitHub-Token, Content-Type")
    (applyHeaders ∅ empty_env).

(** The headers literal of both landing pages. *)
Definition landing_headers : Headers :=
  headers_set "Cache-Control" "public, max-age=86400"
    (headers_set "Content-Type" "text/html;charset=UTF-8" ∅).

(** Further concrete inputs. *)
Module Cases.

Definition env_no_owner : Env :=
  {| GITHUB_OWNER := None; GITHUB_TOKEN := Some "from_env";
     ALLOW_QUERY_PARAM_TOKEN := None; CACHE_TIME := None |}.

Definition unreachable (o : Outbound) : FetchOutcome :=
  Rejected {| message := "Network connection lost." |}.

Definition get_double_slash : Request :=
  {| req_method := "GET";
     req_url := Examples.url_of "//site/main/img/logo.png" [];
     req_headers := ∅ |}.

Definition get_with_owner : Request :=
  {| req_method := "GET";
     req_url := Examples.url_of "/octocat/site/main/img/logo.png" [];
     req_headers := ∅ |}.

Definition not_found_404 : Response :=
  {| status := 404; statusText := "Not Found";
     resp_headers := Examples.upstream_headers; body := Some "404: Not Found" |}.

Definition not_modified_304 : Response :=
  {| status := 304; statusText := "Not Modified";
     resp_headers := Examples.upstream_headers; body := None |}.

Definition no_content_204 : Response :=
  {| status := 204; statusText := "No Content";
     resp_headers := Examples.upstream_headers; body := None |}.

End Cases.

(** * Properties *)

(** ** Headers *)

Lemma headers_get_set_same name value h :
  headers_get name (headers_set name value h) = Some value.
Proof. unfold headers_get, headers_set. apply lookup_insert_eq. Qed.

Lemma headers_get_set_other name name' value h :
  lower name' ≠ lower name →
  headers_get name (headers_set name' value h) = headers_get name h.
Proof. intros Hne. unfold headers_get, headers_set. by apply lookup_insert_ne. Qed.

Lemma authorization_headers_get token :
  headers_get "Authorization" (authorization_headers token)
  = if truthy token then Some ("token " +:+ default "" token) else None.
Proof.
  unfold authorization_headers. destruct (truthy token).
  - apply headers_get_set_same.
  - apply lookup_empty.
Qed.

(** ** Truthiness *)

Lemma truthy_Some s : s ≠ "" → truthy (Some s) = true.
Proof.
  intros Hs. simpl. destruct (String.eqb_spec s ""); [contradiction | reflexivity].
Qed.

Lemma truthy_true_inv v : truthy v = true → ∃ s, v = Some s ∧ s ≠ "".
Proof.
  destruct v as [s|]; simpl; [|discriminate].
  destruct (String.eqb_spec s ""); [discriminate|]. eauto.
Qed.

Lemma searchParams_get_has name ps v :
  searchParams_get name ps = Some v → searchParams_has name ps = true.
Proof.
  unfold searchParams_get, searchParams_has.
  induction ps as [|p ps IH]; simpl; [discriminate|].
  destruct (String.eqb (fst p) name); [reflexivity | exact IH].
Qed.

(** ** What the handlers issue and answer *)

Lemma content_path_inv request :
  content_path request = true →
  String.eqb (req_method request) "OPTIONS" = false
  ∧ (String.eqb (pathname (req_url request)) "/"
     || String.eqb (pathname (req_url request)) "") = false.
Proof.
  unfold content_path, is_preflight, is_root.
  intros [H1 H2]%andb_prop.
  split; [by destruct (String.eqb (req_method request) _)|].
  by destruct (_ || _).
Qed.

Lemma FixedOwner_run_proxied request env upstream :
  FixedOwner.proxied request env = true →
  let o := {| out_url := FixedOwner.upstream_url request env;
              out_method := "GET";
              out_headers := authorization_headers (getToken request env) |} in
  run upstream (FixedOwner.fetch request env)
  = ([o], inl (settle (upstream o) env)).
Proof.
  unfold FixedOwner.proxied.
  intros [[Hc Ho]%andb_prop Hl]%andb_prop.
  apply content_path_inv in Hc as [Hm Hp].
  apply negb_true_iff in Hl. unfold FixedOwner.segments in Hl.
  cbv zeta. unfold FixedOwner.fetch. cbv zeta.
  rewrite Hm, Hp, Ho, Hl. cbn [negb].
  unfold await_fetch. cbn [bind try_catch run].
  unfold outbound_of, FixedOwner.upstream_url, FixedOwner.segments.
  cbn [init_method init_headers default from_option].
  destruct (upstream _) as [r|e]; cbn [settle bind try_catch]; [|reflexivity].
  destruct (respond r env) as [resp|err]; reflexivity.
Qed.

Lemma FixedOwner_run_not_proxied request env upstream :
  FixedOwner.proxied request env = false →
  issued upstream (FixedOwner.fetch request env) = [].
Proof.
  unfold FixedOwner.proxied, content_path, is_preflight, is_root,
    FixedOwner.segments, issued, FixedOwner.fetch. cbv zeta.
  destruct (String.eqb (req_method request) "OPTIONS"); [reflexivity|].
  destruct (_ || _); [reflexivity|].
  destruct (truthy (GITHUB_OWNER env)); [|reflexivity].
  cbn [negb andb].
  destruct (_ <? _)%nat; [reflexivity | discriminate].
Qed.

Lemma OwnerInPath_run_content request env upstream :
  content_path request = true →
  let o := {| out_url := OwnerInPath.upstream_url request;
              out_method := "GET";
              out_headers := authorization_headers (getToken request env) |} in
  run upstream (OwnerInPath.fetch request env)
  = ([o], inl (settle (upstream o) env)).
Proof.
  intros [Hm Hp]%content_path_inv.
  cbv zeta. unfold OwnerInPath.fetch. cbv zeta.
  rewrite Hm, Hp.
  unfold await_fetch. cbn [bind try_catch run].
  unfold outbound_of, OwnerInPath.upstream_url.
  cbn [init_method init_headers default from_option].
  destruct (upstream _) as [r|e]; cbn [settle bind try_catch]; [|reflexivity].
  destruct (respond r env) as [resp|err]; reflexivity.
Qed.

Lemma FixedOwner_issued_headers request env upstream o :
  o ∈ issued upstream (FixedOwner.fetch request env) →
  out_headers o = authorization_headers (getToken request env).
Proof.
  destruct (FixedOwner.proxied request env) eqn:Hp.
  - unfold issued. rewrite (FixedOwner_run_proxied _ _ upstream Hp).
    cbn [fst]. intros ->%list_elem_of_singleton. reflexivity.
  - rewrite (FixedOwner_run_not_proxied _ _ upstream Hp).
    intros []%not_elem_of_nil.
Qed.

Lemma FixedOwner_issued_one request env upstream :
  FixedOwner.proxied request env = true →
  length (issued upstream (FixedOwner.fetch request env)) = 1%nat.
Proof.
  intros Hp. unfold issued. by rewrite (FixedOwner_run_proxied _ _ upstream Hp).
Qed.

(** ** Token resolution *)

Lemma getToken_header request env T :
  headers_get "X-GitHub-Token" (req_headers request) = Some T → T ≠ "" →
  getToken request env = Some T.
Proof.
  intros Hh HT. unfold getToken. cbv zeta.
  rewrite Hh, (truthy_Some _ HT). reflexivity.
Qed.

Lemma getToken_no_header request env :
  truthy (headers_get "X-GitHub-Token" (req_headers request)) = false →
  getToken request env
  = if strict_eq (ALLOW_QUERY_PARAM_TOKEN env) "true"
       && searchParams_has "token" (searchParams (req_url request))
    then searchParams_get "token" (searchParams (req_url request))
    else if truthy (GITHUB_TOKEN env) then GITHUB_TOKEN env else None.
Proof.
  intros Hh. unfold getToken. cbv zeta. rewrite Hh.
  destruct (strict_eq _ _); [|reflexivity].
  destruct (searchParams_has _ _); reflexivity.
Qed.

(** C1. A request whose [X-GitHub-Token] header is present with a non-empty
    value [T] resolves to the token [T], whatever the query string, the
    [ALLOW_QUERY_PARAM_TOKEN] flag and the configured [GITHUB_TOKEN] are; every
    outbound request of the handler then carries exactly the header
    [Authorization: token T], and a request that gets past the owner and
    path checks issues one. *)
Theorem C1_header_token_wins request env upstream T :
  headers_get "X-GitHub-Token" (req_headers request) = Some T →
  T ≠ "" →
  getToken request env = Some T
  ∧ (∀ o, o ∈ issued upstream (FixedOwner.fetch request env) →
       out_headers o = headers_set "Authorization" ("token " +:+ T) ∅
       ∧ headers_get "Authorization" (out_headers o) = Some ("token " +:+ T))
  ∧ (FixedOwner.proxied request env = true →
       length (issued upstream (FixedOwner.fetch request env)) = 1%nat).
Proof.
  intros Hh HT.
  pose proof (getToken_header request env T Hh HT) as Htok.
  split; [exact Htok|]. split.
  - intros o Ho. apply FixedOwner_issued_headers in Ho.
    rewrite Ho, Htok. unfold authorization_headers.
    rewrite (truthy_Some _ HT). cbn [default from_option].
    split; [reflexivity | apply headers_get_set_same].
  - apply FixedOwner_issued_one.
Qed.

Lemma C1_header_token_wins_witness :
  getToken Examples.get_file_header_token Examples.env_query_allowed
  = Some "from_header"
  ∧ (∀ o, o ∈ issued (Examples.answers Examples.png_200)
              (FixedOwner.fetch Examples.get_file_header_token
                 Examples.env_query_allowed) →
       out_headers o = headers_set "Authorization" "token from_header" ∅
       ∧ headers_get "Authorization" (out_headers o)
         = Some "token from_header")
  ∧ (FixedOwner.proxied Examples.get_file_header_token
       Examples.env_query_allowed = true →
       length (issued (Examples.answers Examples.png_200)
                 (FixedOwner.fetch Examples.get_file_header_token
                    Examples.env_query_allowed)) = 1%nat).
Proof.
  apply (C1_header_token_wins Examples.get_file_header_token
           Examples.env_query_allowed (Examples.answers Examples.png_200)
           "from_header").
  - vm_compute. reflexivity.
  - discriminate.
Defined.

(** C2, as stated, fails: with no header token, the flag unset and
    [?token=from_query] in the URL, a configured [GITHUB_TOKEN] is still
    sent upstream. *)
Lemma C2_counterexample :
  headers_get "X-GitHub-Token" (req_headers Examples.get_file_query_token) = None
  ∧ strict_eq (ALLOW_QUERY_PARAM_TOKEN Examples.env_static_token) "true" = false
  ∧ searchParams_get "token"
      (searchParams (req_url Examples.get_file_query_token))
    = Some "from_query"
  ∧ ∃ o, issued (Examples.answers Examples.png_200)
           (FixedOwner.fetch Examples.get_file_query_token
              Examples.env_static_token) = [o]
         ∧ headers_get "Authorization" (out_headers o) = Some "token from_env".
Proof.
  repeat split; try (vm_compute; reflexivity).
  eexists. split; vm_compute; reflexivity.
Qed.

(** C2, amended. With no [X-GitHub-Token] header, the flag not equal to
    [true] and [?token=T] present, the query parameter is never used: the
    resolved token is the configured [GITHUB_TOKEN] when that is set and
    non-empty and absent otherwise, so an outbound request carries
    [Authorization: token GITHUB_TOKEN] in the first case and no
    [Authorization] header in the second. *)
Theorem C2_query_token_ignored request env upstream T :
  headers_get "X-GitHub-Token" (req_headers request) = None →
  strict_eq (ALLOW_QUERY_PARAM_TOKEN env) "true" = false →
  searchParams_get "token" (searchParams (req_url request)) = Some T →
  getToken request env
  = (if truthy (GITHUB_TOKEN env) then GITHUB_TOKEN env else None)
  ∧ (∀ o, o ∈ issued upstream (FixedOwner.fetch request env) →
       headers_get "Authorization" (out_headers o)
       = if truthy (GITHUB_TOKEN env)
         then Some ("token " +:+ default "" (GITHUB_TOKEN env))
         else None)
  ∧ (FixedOwner.proxied request env = true →
       length (issued upstream (FixedOwner.fetch request env)) = 1%nat).
Proof.
  intros Hh Hflag _.
  assert (Htok : getToken request env
                 = if truthy (GITHUB_TOKEN env) then GITHUB_TOKEN env else None).
  { rewrite getToken_no_header by (rewrite Hh; reflexivity).
    rewrite Hflag. reflexivity. }
  split; [exact Htok|]. split.
  - intros o Ho. apply FixedOwner_issued_headers in Ho.
    rewrite Ho, Htok, authorization_headers_get.
    destruct (truthy (GITHUB_TOKEN env)) eqn:Hg; [rewrite Hg|]; reflexivity.
  - apply FixedOwner_issued_one.
Qed.

Lemma C2_query_token_ignored_witness :
  getToken Examples.get_file_query_token Examples.env_owner_only = None
  ∧ ∀ o, o ∈ issued (Examples.answers Examples.png_200)
             (FixedOwner.fetch Examples.get_file_query_token
                Examples.env_owner_only) →
      headers_get "Authorization" (out_headers o) = None.
Proof.
  destruct (C2_query_token_ignored Examples.get_file_query_token
              Examples.env_owner_only (Examples.answers Examples.png_200)
              "from_query") as (Htok & Hout & _).
  - vm_compute. reflexivity.
  - vm_compute. reflexivity.
  - vm_compute. reflexivity.
  - split; [exact Htok | exact Hout].
Defined.

(** C10. With the [X-GitHub-Token] header absent or empty, the flag exactly
    [true] and the query parameter [token] present with an empty value,
    token resolution returns the empty string whatever [GITHUB_TOKEN] holds,
    and every outbound request carries no [Authorization] header: its
    header set is empty. *)
Theorem C10_empty_query_token request env upstream :
  headers_get "X-GitHub-Token" (req_headers request) = None
  ∨ headers_get "X-GitHub-Token" (req_headers request) = Some "" →
  ALLOW_QUERY_PARAM_TOKEN env = Some "true" →
  searchParams_get "token" (searchParams (req_url request)) = Some "" →
  getToken request env = Some ""
  ∧ (∀ o, o ∈ issued upstream (FixedOwner.fetch request env) →
       out_headers o = ∅
       ∧ headers_get "Authorization" (out_headers o) = None)
  ∧ (FixedOwner.proxied request env = true →
       length (issued upstream (FixedOwner.fetch request env)) = 1%nat).
Proof.
  intros Hh Hflag Hq.
  assert (Htok : getToken request env = Some "").
  { rewrite getToken_no_header by (destruct Hh as [-> | ->]; reflexivity).
    rewrite Hflag, (searchParams_get_has _ _ _ Hq). exact Hq. }
  split; [exact Htok|]. split.
  - intros o Ho. apply FixedOwner_issued_headers in Ho.
    rewrite Ho, Htok. split; [reflexivity | apply lookup_empty].
  - apply FixedOwner_issued_one.
Qed.

Lemma C10_empty_query_token_witness :
  getToken Examples.get_file_empty_query_token Examples.env_query_allowed
  = Some ""
  ∧ length (issued (Examples.answers Examples.png_200)
              (FixedOwner.fetch Examples.get_file_empty_query_token
                 Examples.env_query_allowed)) = 1%nat.
Proof.
  destruct (C10_empty_query_token Examples.get_file_empty_query_token
              Examples.env_query_allowed (Examples.answers Examples.png_200))
    as (Htok & _ & Hone).
  - left. vm_compute. reflexivity.
  - reflexivity.
  - reflexivity.
  - split; [exact Htok | apply Hone; vm_compute; reflexivity].
Defined.


(** ** The [Response] constructor *)

Lemma new_Response_returns b init :
  200 ≤ default 200 (init_status init) ≤ 599 →
  body_is_null b = true ∨ null_body_status (default 200 (init_status init)) = false →
  new_Response b init = inl (make_Response b init).
Proof.
  intros [Hlo Hhi] Hnull. unfold new_Response. cbv zeta.
  apply N.leb_le in Hlo, Hhi. rewrite Hlo, Hhi. cbn [andb negb].
  destruct Hnull as [-> | ->]; [reflexivity|].
  by rewrite andb_false_r.
Qed.

Lemma new_Response_null_body_throws s n :
  200 ≤ n ≤ 599 → null_body_status n = true →
  new_Response (BodyString s) (init_of_status n) = inr TypeError_null_body.
Proof.
  intros [Hlo Hhi] Hnull. unfold new_Response. cbv zeta.
  change (default 200 (init_status (init_of_status n))) with n.
  apply N.leb_le in Hlo, Hhi. rewrite Hlo, Hhi, Hnull. reflexivity.
Qed.

Lemma ok_status r : ok r = true ↔ 200 ≤ status r ≤ 299.
Proof.
  unfold ok. rewrite andb_true_iff, !N.leb_le. reflexivity.
Qed.

Lemma null_body_status_304 n :
  300 ≤ n → null_body_status n = true → n = 304.
Proof.
  unfold null_body_status. intros Hn.
  rewrite !orb_true_iff, !N.eqb_eq. lia.
Qed.

(** ** The error mapper *)

Lemma handleGitHubError_returns r :
  300 ≤ status r ≤ 599 → status r ≠ 304 →
  ∃ resp, handleGitHubError r = inl resp
          ∧ resp_headers resp = plain_text_headers
          ∧ (status r = 404 →
             status resp = 404
             ∧ body resp
               = Some "File not found. Check repository, branch, and file path.")
          ∧ (status r = 401 ∨ status r = 403 →
             status resp = 403
             ∧ body resp
               = Some "Access denied. Your token may be invalid or lack permissions.")
          ∧ (status r ≠ 404 → status r ≠ 401 → status r ≠ 403 →
             status resp = status r
             ∧ body resp
               = Some ("GitHub API error: " +:+ number_toString (status r)
                       +:+ " " +:+ statusText r)).
Proof.
  intros Hrange H304. unfold handleGitHubError.
  destruct (N.eqb_spec (status r) 404) as [E404|N404].
  { eexists. split; [reflexivity|]. split; [reflexivity|].
    repeat split; try reflexivity; intros; lia. }
  destruct (N.eqb_spec (status r) 401) as [E401|N401].
  { eexists. split; [reflexivity|]. split; [reflexivity|].
    repeat split; try reflexivity; intros; lia. }
  destruct (N.eqb_spec (status r) 403) as [E403|N403].
  { eexists. split; [reflexivity|]. split; [reflexivity|].
    repeat split; try reflexivity; intros; lia. }
  cbn [orb]. rewrite new_Response_returns.
  - eexists. split; [reflexivity|]. split; [reflexivity|].
    repeat split; try reflexivity; intros; lia.
  - change (200 ≤ status r ≤ 599). lia.
  - right. change (null_body_status (status r) = false).
    destruct (null_body_status (status r)) eqn:Hn; [|reflexivity].
    apply null_body_status_304 in Hn; lia.
Qed.

(** C3, at the input where the code departs from it.  For an upstream 304
    the error mapper does not return a response that keeps the status: the
    constructor refuses a text body with that status and throws, and the
    handler's [catch] clause answers 500. *)
Theorem C3_not_modified_throws :
  ok Cases.not_modified_304 = false
  ∧ handleGitHubError Cases.not_modified_304 = inr TypeError_null_body
  ∧ ∃ resp,
      result (Examples.answers Cases.not_modified_304)
        (FixedOwner.fetch Examples.get_file Examples.env_owner_only) = inl resp
      ∧ status resp = 500
      ∧ status resp ≠ status Cases.not_modified_304
      ∧ body resp
        = Some ("Proxy request failed: " +:+ message TypeError_null_body).
Proof.
  split; [reflexivity|]. split; [reflexivity|].
  eexists. split; [vm_compute; reflexivity|].
  repeat split. vm_compute. discriminate.
Qed.

(** ** The response transformer *)

Lemma new_Response_inv b init resp :
  new_Response b init = inl resp → resp = make_Response b init.
Proof.
  unfold new_Response. cbv zeta.
  destruct (negb _); [discriminate|].
  destruct (_ && _); [discriminate|]. by intros [= <-].
Qed.

Lemma respond_ok r env :
  ok r = true → delivered r →
  respond r env
  = inl {| status := status r; statusText := statusText r;
           resp_headers := applyHeaders (resp_headers r) env;
           body := body r |}.
Proof.
  intros Hok Hd. unfold respond. rewrite Hok. cbn [negb].
  rewrite new_Response_returns; [reflexivity|..].
  - change (200 ≤ status r ≤ 599). apply ok_status in Hok. lia.
  - change (body_is_null (BodyStream (body r)) = true
            ∨ null_body_status (status r) = false).
    destruct (null_body_status (status r)) eqn:Hn; [left | by right].
    by rewrite (Hd Hn).
Qed.

Lemma respond_ok_inv r env resp :
  ok r = true → respond r env = inl resp →
  resp = {| status := status r; statusText := statusText r;
            resp_headers := applyHeaders (resp_headers r) env;
            body := body r |}.
Proof.
  intros Hok. unfold respond. rewrite Hok. cbn [negb].
  destruct (new_Response _ _) as [response|err] eqn:Hnew; [|discriminate].
  apply new_Response_inv in Hnew as ->. by intros [= <-].
Qed.

Lemma respond_not_ok r env :
  ok r = false → respond r env = handleGitHubError r.
Proof. intros Hok. unfold respond. rewrite Hok. reflexivity. Qed.


Lemma result_proxied request env upstream r :
  FixedOwner.proxied request env = true →
  (∀ o, upstream o = Resolved r) →
  result upstream (FixedOwner.fetch request env)
  = inl (settle (Resolved r) env).
Proof.
  intros Hp Hup. unfold result.
  rewrite (FixedOwner_run_proxied _ _ upstream Hp). cbv zeta. cbn [snd].
  by rewrite Hup.
Qed.


Lemma settle_passes_through r env :
  ok r = true → delivered r →
  ∃ resp, settle (Resolved r) env = resp
          ∧ status resp = status r ∧ body resp = body r
          ∧ resp_headers resp = applyHeaders (resp_headers r) env.
Proof.
  intros Hok Hd. cbn [settle]. rewrite (respond_ok _ _ Hok Hd).
  eexists. repeat split.
Qed.





(** ** The upstream fetcher *)

(** C5, as stated, fails: an inbound HEAD is sent upstream as a GET. *)
Lemma C5_counterexample :
  content_path Examples.head_file = true
  ∧ req_method Examples.head_file = "HEAD"
  ∧ ∃ o, issued (Examples.answers Examples.png_200)
           (FixedOwner.fetch Examples.head_file Examples.env_owner_only) = [o]
         ∧ out_method o = "GET"
         ∧ out_method o ≠ req_method Examples.head_file.
Proof.
  split; [vm_compute; reflexivity|]. split; [reflexivity|].
  eexists. split; [vm_compute; reflexivity|].
  split; [reflexivity | vm_compute; discriminate].
Qed.

(** C5, amended. A content-path request that reaches the upstream fetch
    (in [cdn-worker.js]: the owner is configured and the path has three
    pieces; in the other script: every content-path request) issues exactly
    one outbound request, to the upstream address built from the path; its
    method is always GET, whatever the inbound method; it carries
    [Authorization: token <value>] exactly when [getToken] gave a non-empty
    token.  A request stopped by the owner or path check issues none. *)
Theorem C5_one_outbound_get request env upstream :
  (FixedOwner.proxied request env = true →
     ∃ o, issued upstream (FixedOwner.fetch request env) = [o]
          ∧ out_url o = FixedOwner.upstream_url request env
          ∧ out_method o = "GET"
          ∧ headers_get "Authorization" (out_headers o)
            = if truthy (getToken request env)
              then Some ("token " +:+ default "" (getToken request env))
              else None)
  ∧ (FixedOwner.proxied request env = false →
     issued upstream (FixedOwner.fetch request env) = [])
  ∧ (content_path request = true →
     ∃ o, issued upstream (OwnerInPath.fetch request env) = [o]
          ∧ out_url o = OwnerInPath.upstream_url request
          ∧ out_method o = "GET"
          ∧ headers_get "Authorization" (out_headers o)
            = if truthy (getToken request env)
              then Some ("token " +:+ default "" (getToken request env))
              else None).
Proof.
  split; [|split].
  - intros Hp. unfold issued.
    rewrite (FixedOwner_run_proxied _ _ upstream Hp). cbn [fst].
    eexists. split; [reflexivity|]. cbn [out_url out_method out_headers].
    repeat split. apply authorization_headers_get.
  - apply FixedOwner_run_not_proxied.
  - intros Hc. unfold issued.
    rewrite (OwnerInPath_run_content _ _ upstream Hc). cbn [fst].
    eexists. split; [reflexivity|]. cbn [out_url out_method out_headers].
    repeat split. apply authorization_headers_get.
Qed.

(** ** The path check of [cdn-worker.js] *)

Lemma nonempty_segments_le request :
  (length (FixedOwner.nonempty_segments request)
   ≤ length (FixedOwner.segments request))%nat.
Proof. unfold FixedOwner.nonempty_segments. apply List.filter_length_le. Qed.

Lemma FixedOwner_run_short_path request env upstream :
  content_path request = true →
  truthy (GITHUB_OWNER env) = true →
  (length (FixedOwner.segments request) < 3)%nat →
  run upstream (FixedOwner.fetch request env)
  = ([], inl (make_Response
                (BodyString "Invalid path. Format: /repo/branch/path-to-file")
                (init_of_status 400))).
Proof.
  intros [Hm Hp]%content_path_inv Ho Hl.
  apply Nat.ltb_lt in Hl. unfold FixedOwner.segments in Hl.
  unfold FixedOwner.fetch. cbv zeta. rewrite Hm, Hp, Ho, Hl. reflexivity.
Qed.

(** C6, as stated, fails: [/site/main/] has two non-empty segments only,
    yet the handler does not answer 400; it fetches
    [https://raw.githubusercontent.com/octocat/site/main/]. *)
Lemma C6_counterexample :
  content_path Examples.get_trailing_slash = true
  ∧ FixedOwner.nonempty_segments Examples.get_trailing_slash = ["site"; "main"]
  ∧ ∃ o resp,
      run (Examples.answers Examples.png_200)
        (FixedOwner.fetch Examples.get_trailing_slash Examples.env_owner_only)
      = ([o], inl resp)
      ∧ out_url o = "https://raw.githubusercontent.com/octocat/site/main/"
      ∧ status resp = 200
      ∧ status resp ≠ 400.
Proof.
  split; [vm_compute; reflexivity|]. split; [vm_compute; reflexivity|].
  eexists. eexists. split; [vm_compute; reflexivity|].
  split; [vm_compute; reflexivity|]. split; [reflexivity | vm_compute; discriminate].
Qed.

(** C6, amended. In [cdn-worker.js], with [GITHUB_OWNER] configured, a
    non-root, non-OPTIONS request whose path, once its leading slashes are
    stripped, splits at the slashes into fewer than three pieces (empty
    pieces counted) is answered 400 with the text naming the expected
    format, and nothing is fetched; a path that splits into at least three
    pieces, in particular one with at least three non-empty segments, goes
    on to the upstream fetch. *)
Theorem C6_path_check request env upstream :
  content_path request = true →
  truthy (GITHUB_OWNER env) = true →
  ((length (FixedOwner.segments request) < 3)%nat →
     ∃ resp, run upstream (FixedOwner.fetch request env) = ([], inl resp)
             ∧ status resp = 400
             ∧ body resp
               = Some "Invalid path. Format: /repo/branch/path-to-file")
  ∧ ((3 ≤ length (FixedOwner.segments request))%nat →
     FixedOwner.proxied request env = true
     ∧ length (issued upstream (FixedOwner.fetch request env)) = 1%nat)
  ∧ ((3 ≤ length (FixedOwner.nonempty_segments request))%nat →
     FixedOwner.proxied request env = true
     ∧ length (issued upstream (FixedOwner.fetch request env)) = 1%nat).
Proof.
  intros Hc Ho.
  assert (Hgo : (3 ≤ length (FixedOwner.segments request))%nat →
                FixedOwner.proxied request env = true
                ∧ length (issued upstream (FixedOwner.fetch request env)) = 1%nat).
  { intros Hl.
    assert (Hp : FixedOwner.proxied request env = true).
    { unfold FixedOwner.proxied. rewrite Hc, Ho. cbn [andb].
      apply negb_true_iff, Nat.ltb_ge, Hl. }
    split; [exact Hp | by apply FixedOwner_issued_one]. }
  split; [|split].
  - intros Hl. rewrite (FixedOwner_run_short_path _ _ upstream Hc Ho Hl).
    eexists. repeat split.
  - exact Hgo.
  - intros Hl. apply Hgo. pose proof (nonempty_segments_le request). lia.
Qed.

Lemma C6_path_check_witness :
  ∃ resp,
    run (Examples.answers Examples.png_200)
      (FixedOwner.fetch Examples.get_short_path Examples.env_owner_only)
    = ([], inl resp)
    ∧ status resp = 400
    ∧ body resp = Some "Invalid path. Format: /repo/branch/path-to-file".
Proof.
  destruct (C6_path_check Examples.get_short_path Examples.env_owner_only
              (Examples.answers Examples.png_200)) as (Hshort & _ & _).
  - vm_compute. reflexivity.
  - reflexivity.
  - apply Hshort. vm_compute. lia.
Defined.


(** ** The header rewriter *)

Ltac names_differ :=
  let E := fresh "E" in intros E; vm_compute in E; discriminate E.

Ltac applied_header :=
  unfold applyHeaders; cbv zeta;
  repeat (rewrite headers_get_set_other by names_differ);
  apply headers_get_set_same.

Lemma applyHeaders_cache_control h env :
  headers_get "Cache-Control" (applyHeaders h env)
  = Some ("public, max-age=" +:+ or_else (CACHE_TIME env) "86400").
Proof. applied_header. Qed.

Lemma applyHeaders_cors h env :
  headers_get "Access-Control-Allow-Origin" (applyHeaders h env) = Some "*"
  ∧ headers_get "Access-Control-Allow-Methods" (applyHeaders h env)
    = Some "GET, HEAD, OPTIONS"
  ∧ headers_get "Access-Control-Max-Age" (applyHeaders h env) = Some "86400".
Proof. repeat split; applied_header. Qed.

Lemma applyHeaders_security h env : security_headers (applyHeaders h env).
Proof. repeat split; applied_header. Qed.

Lemma applyHeaders_frame h env name :
  lower name ∉ lower <$> rewritten_names →
  headers_get name (applyHeaders h env) = headers_get name h.
Proof.
  intros Hname. unfold applyHeaders. cbv zeta.
  rewrite !headers_get_set_other; [reflexivity|..];
    intros E; apply Hname; rewrite <- E;
    apply list_elem_of_fmap_2; unfold rewritten_names; set_solver.
Qed.

(** C7. A successful (2xx) proxied response of [cdn-worker.js].  When a
    request reaches the upstream fetch and the upstream answers with a 2xx
    status, the handler answers with that status (for an answer as the
    network delivers it), and every success response it gives has
    [Cache-Control] equal to [public, max-age=86400] when [CACHE_TIME] is
    not configured (unset or empty) and to [public, max-age=<CACHE_TIME>]
    when it is; the CORS and security headers have their fixed values
    whatever the upstream sent under those names; every header of another
    name, [Content-Type], [ETag] and [Content-Length] among them, is the
    upstream's. *)
Theorem C7_header_rewrite request env upstream r :
  FixedOwner.proxied request env = true →
  (∀ o, upstream o = Resolved r) →
  ok r = true →
  (delivered r →
     ∃ resp, result upstream (FixedOwner.fetch request env) = inl resp
             ∧ status resp = status r)
  ∧ (∀ resp,
       result upstream (FixedOwner.fetch request env) = inl resp →
       200 ≤ status resp ≤ 299 →
       (CACHE_TIME env = None ∨ CACHE_TIME env = Some "" →
          headers_get "Cache-Control" (resp_headers resp)
          = Some "public, max-age=86400")
       ∧ (∀ c, CACHE_TIME env = Some c → c ≠ "" →
          headers_get "Cache-Control" (resp_headers resp)
          = Some ("public, max-age=" +:+ c))
       ∧ headers_get "Access-Control-Allow-Origin" (resp_headers resp)
         = Some "*"
       ∧ headers_get "Access-Control-Allow-Methods" (resp_headers resp)
         = Some "GET, HEAD, OPTIONS"
       ∧ headers_get "Access-Control-Max-Age" (resp_headers resp)
         = Some "86400"
       ∧ security_headers (resp_headers resp)
       ∧ (∀ name, lower name ∉ lower <$> rewritten_names →
            headers_get name (resp_headers resp)
            = headers_get name (resp_headers r))
       ∧ (∀ name, name ∈ ["Content-Type"; "ETag"; "Content-Length"] →
            headers_get name (resp_headers resp)
            = headers_get name (resp_headers r))).
Proof.
  intros Hp Hup Hok. rewrite (result_proxied _ _ _ _ Hp Hup). split.
  - intros Hd.
    destruct (settle_passes_through r env Hok Hd) as (resp & Hset & Hs & _).
    rewrite Hset. by exists resp.
  - intros resp [= <-] H2xx. cbn [settle] in H2xx |- *.
    destruct (respond r env) as [resp|err] eqn:Hresp;
      [|exfalso; cbn in H2xx; lia].
    rewrite (respond_ok_inv _ _ _ Hok Hresp). cbn [resp_headers].
    destruct (applyHeaders_cors (resp_headers r) env) as (Ho & Hm & Ha).
    repeat split; try assumption; try apply applyHeaders_security.
    + intros Hc. rewrite applyHeaders_cache_control.
      destruct Hc as [-> | ->]; reflexivity.
    + intros c Hc Hne. rewrite applyHeaders_cache_control, Hc. cbn [or_else].
      destruct (String.eqb_spec c ""); [contradiction | reflexivity].
    + apply applyHeaders_frame.
    + intros name Hin. apply applyHeaders_frame.
      repeat (apply elem_of_cons in Hin as [-> | Hin];
              [apply (bool_decide_unpack _); vm_compute; exact I|]).
      by apply elem_of_nil in Hin.
Qed.

Lemma C7_header_rewrite_witness :
  ∃ resp,
    result (Examples.answers Examples.png_200)
      (FixedOwner.fetch Examples.get_file Examples.env_one_hour) = inl resp
    ∧ status resp = 200
    ∧ headers_get "Cache-Control" (resp_headers resp)
      = Some "public, max-age=3600"
    ∧ headers_get "X-Frame-Options" (resp_headers resp) = Some "DENY"
    ∧ headers_get "Content-Type" (resp_headers resp) = Some "image/png".
Proof.
  destruct (C7_header_rewrite Examples.get_file Examples.env_one_hour
              (Examples.answers Examples.png_200) Examples.png_200)
    as [Hexists Hrewrite].
  - vm_compute. reflexivity.
  - intros o. reflexivity.
  - reflexivity.
  - destruct Hexists as (resp & Hres & Hs);
      [intros Hn; vm_compute in Hn; discriminate Hn|].
    assert (H2xx : 200 ≤ status resp ≤ 299)
      by (rewrite Hs; vm_compute; split; discriminate).
    destruct (Hrewrite resp Hres H2xx)
      as (_ & Hcache & _ & _ & _ & Hsec & _ & Hkept).
    exists resp. split; [exact Hres|]. split; [exact Hs|].
    split; [apply Hcache; [reflexivity | discriminate]|].
    split; [apply Hsec|].
    rewrite Hkept; [vm_compute; reflexivity | constructor].
Defined.

(** ** The preflight handler *)

Lemma handleOptions_returns request :
  handleOptions request
  = inl (make_Response BodyNull (init_of_headers (preflight_headers request))).
Proof. reflexivity. Qed.

Lemma handleOptions_allow_headers request :
  headers_get "Access-Control-Allow-Headers" (preflight_headers request)
  = Some (or_else (headers_get "Access-Control-Request-Headers"
                     (req_headers request))
                  "X-GitHub-Token, Content-Type").
Proof. apply headers_get_set_same. Qed.

Lemma handleOptions_applied request name :
  lower name ≠ lower "Access-Control-Allow-Headers" →
  headers_get name (preflight_headers request)
  = headers_get name (applyHeaders ∅ empty_env).
Proof. intros Hne. by apply headers_get_set_other. Qed.

Lemma handleOptions_security request :
  security_headers (preflight_headers request).
Proof.
  destruct (applyHeaders_security ∅ empty_env) as (H1 & H2 & H3).
  repeat split; (rewrite handleOptions_applied; [assumption | names_differ]).
Qed.

Lemma FixedOwner_run_preflight request env upstream :
  req_method request = "OPTIONS" →
  run upstream (FixedOwner.fetch request env)
  = ([], inl (make_Response BodyNull (init_of_headers (preflight_headers request)))).
Proof. intros Hm. unfold FixedOwner.fetch. cbv zeta. rewrite Hm. reflexivity. Qed.

(** C8, as stated, fails: with [CACHE_TIME] configured as 3600 the
    preflight response still carries [max-age=86400]. *)
Lemma C8_counterexample :
  req_method Examples.preflight = "OPTIONS"
  ∧ CACHE_TIME Examples.env_one_hour = Some "3600"
  ∧ ∃ resp,
      result (Examples.answers Examples.png_200)
        (FixedOwner.fetch Examples.preflight Examples.env_one_hour) = inl resp
      ∧ headers_get "Cache-Control" (resp_headers resp)
        = Some "public, max-age=86400"
      ∧ headers_get "Cache-Control" (resp_headers resp)
        ≠ Some "public, max-age=3600".
Proof.
  split; [reflexivity|]. split; [reflexivity|].
  eexists. split; [vm_compute; reflexivity|].
  split; [vm_compute; reflexivity | vm_compute; discriminate].
Qed.

(** C8, amended. Every OPTIONS request, whatever its path, is answered
    without any outbound request, with status 200 and no body; the response
    carries the header set of the header rewriter computed from an empty
    environment, so [Cache-Control] is always [public, max-age=86400]
    whatever [CACHE_TIME] is configured; [Access-Control-Allow-Headers] is
    the request's [Access-Control-Request-Headers] value when that is
    present and non-empty, else [X-GitHub-Token, Content-Type]. *)
Theorem C8_preflight request env upstream :
  req_method request = "OPTIONS" →
  ∃ resp,
    run upstream (FixedOwner.fetch request env) = ([], inl resp)
    ∧ status resp = 200
    ∧ body resp = None
    ∧ headers_get "Cache-Control" (resp_headers resp)
      = Some "public, max-age=86400"
    ∧ headers_get "Access-Control-Allow-Origin" (resp_headers resp) = Some "*"
    ∧ headers_get "Access-Control-Allow-Methods" (resp_headers resp)
      = Some "GET, HEAD, OPTIONS"
    ∧ headers_get "Access-Control-Max-Age" (resp_headers resp) = Some "86400"
    ∧ security_headers (resp_headers resp)
    ∧ (∀ v, headers_get "Access-Control-Request-Headers" (req_headers request)
            = Some v → v ≠ "" →
            headers_get "Access-Control-Allow-Headers" (resp_headers resp)
            = Some v)
    ∧ (headers_get "Access-Control-Request-Headers" (req_headers request) = None
       ∨ headers_get "Access-Control-Request-Headers" (req_headers request)
         = Some "" →
       headers_get "Access-Control-Allow-Headers" (resp_headers resp)
       = Some "X-GitHub-Token, Content-Type").
Proof.
  intros Hm.
  exists (make_Response BodyNull (init_of_headers (preflight_headers request))).
  split; [by apply FixedOwner_run_preflight|].
  split; [reflexivity|]. split; [reflexivity|].
  change (resp_headers (make_Response BodyNull
                          (init_of_headers (preflight_headers request))))
    with (preflight_headers request).
  destruct (applyHeaders_cors ∅ empty_env) as (Ho & Hme & Ha).
  pose proof (applyHeaders_cache_control ∅ empty_env) as Hc.
  repeat split;
    try (rewrite handleOptions_applied by names_differ; assumption);
    try apply handleOptions_security.
  - intros v Hv Hne. rewrite handleOptions_allow_headers, Hv. cbn [or_else].
    destruct (String.eqb_spec v ""); [contradiction | reflexivity].
  - intros Hv. rewrite handleOptions_allow_headers.
    destruct Hv as [-> | ->]; reflexivity.
Qed.

Lemma C8_preflight_witness :
  ∃ resp,
    run (Examples.answers Examples.png_200)
      (FixedOwner.fetch Examples.preflight Examples.env_one_hour)
    = ([], inl resp)
    ∧ status resp = 200
    ∧ body resp = None
    ∧ headers_get "Cache-Control" (resp_headers resp)
      = Some "public, max-age=86400".
Proof.
  destruct (C8_preflight Examples.preflight Examples.env_one_hour
              (Examples.answers Examples.png_200))
    as (resp & Hrun & Hs & Hb & Hc & _).
  - reflexivity.
  - exists resp. repeat split; assumption.
Defined.


(** ** Security headers on responses *)

Lemma handleGitHubError_status r resp :
  ok r = false →
  handleGitHubError r = inl resp →
  ¬ (200 ≤ status resp ≤ 299) ∧ resp_headers resp = plain_text_headers.
Proof.
  unfold handleGitHubError. intros Hok.
  destruct (N.eqb_spec (status r) 404);
    [intros ->%new_Response_inv; split; [cbn; lia | reflexivity]|].
  destruct (_ || _);
    [intros ->%new_Response_inv; split; [cbn; lia | reflexivity]|].
  intros ->%new_Response_inv. split; [|reflexivity].
  change (¬ (200 ≤ status r ≤ 299)). rewrite <- ok_status. by rewrite Hok.
Qed.

Lemma settle_kinds outcome env :
  (∃ r, outcome = Resolved r ∧ ok r = true
        ∧ settle outcome env
          = {| status := status r; statusText := statusText r;
               resp_headers := applyHeaders (resp_headers r) env;
               body := body r |})
  ∨ (¬ (200 ≤ status (settle outcome env) ≤ 299)
     ∧ resp_headers (settle outcome env) = plain_text_headers).
Proof.
  destruct outcome as [r|e]; cbn [settle];
    [|right; split; [cbn; lia | reflexivity]].
  destruct (respond r env) as [resp|err] eqn:Hresp;
    [|right; split; [cbn; lia | reflexivity]].
  destruct (ok r) eqn:Hok.
  - left. exists r. by rewrite (respond_ok_inv _ _ _ Hok Hresp).
  - right. rewrite (respond_not_ok _ _ Hok) in Hresp.
    by apply (handleGitHubError_status r).
Qed.

Lemma settle_success outcome env :
  200 ≤ status (settle outcome env) ≤ 299 →
  security_headers (resp_headers (settle outcome env)).
Proof.
  destruct (settle_kinds outcome env) as [(r & _ & _ & ->) | [Hno _]];
    [|by intros H].
  intros _. apply applyHeaders_security.
Qed.

Lemma FixedOwner_run_root request env upstream :
  is_preflight request = false →
  is_root request = true →
  run upstream (FixedOwner.fetch request env)
  = ([], inl (make_Response
                (BodyString (FixedOwner.landing_html (origin (req_url request))))
                (init_of_headers landing_headers))).
Proof.
  unfold is_preflight, is_root. intros Hm Hp.
  unfold FixedOwner.fetch. cbv zeta. rewrite Hm, Hp. reflexivity.
Qed.

Lemma FixedOwner_run_no_owner request env upstream :
  content_path request = true →
  truthy (GITHUB_OWNER env) = false →
  run upstream (FixedOwner.fetch request env)
  = ([], inl (make_Response
                (BodyString "GITHUB_OWNER environment variable not set.")
                (init_of_status 500))).
Proof.
  intros [Hm Hp]%content_path_inv Ho.
  unfold FixedOwner.fetch. cbv zeta. rewrite Hm, Hp, Ho. reflexivity.
Qed.

Lemma not_proxied_cases request env :
  content_path request = true →
  FixedOwner.proxied request env = false →
  truthy (GITHUB_OWNER env) = false
  ∨ (truthy (GITHUB_OWNER env) = true
     ∧ (length (FixedOwner.segments request) < 3)%nat).
Proof.
  intros Hc Hp. unfold FixedOwner.proxied in Hp. rewrite Hc in Hp.
  destruct (truthy (GITHUB_OWNER env)); [right | by left].
  cbn [andb] in Hp. split; [reflexivity|]. by apply Nat.ltb_lt, negb_false_iff.
Qed.

Lemma FixedOwner_content_success request env upstream resp :
  content_path request = true →
  result upstream (FixedOwner.fetch request env) = inl resp →
  200 ≤ status resp ≤ 299 →
  security_headers (resp_headers resp).
Proof.
  intros Hc. unfold result.
  destruct (FixedOwner.proxied request env) eqn:Hp.
  - rewrite (FixedOwner_run_proxied _ _ upstream Hp). cbn [snd].
    intros [= <-]. apply settle_success.
  - destruct (not_proxied_cases _ _ Hc Hp) as [Ho | [Ho Hl]].
    + rewrite (FixedOwner_run_no_owner _ _ upstream Hc Ho). cbn [snd].
      intros [= <-]. cbn. lia.
    + rewrite (FixedOwner_run_short_path _ _ upstream Hc Ho Hl). cbn [snd].
      intros [= <-]. cbn. lia.
Qed.

(** C9, as stated, fails: the landing page is a success response and
    carries none of the three security headers. *)
Lemma C9_counterexample :
  ∃ resp,
    result (Examples.answers Examples.png_200)
      (FixedOwner.fetch Examples.get_root Examples.env_owner_only) = inl resp
    ∧ status resp = 200
    ∧ headers_get "X-Content-Type-Options" (resp_headers resp) = None
    ∧ headers_get "X-Frame-Options" (resp_headers resp) = None
    ∧ headers_get "Referrer-Policy" (resp_headers resp) = None.
Proof.
  eexists. split; [vm_compute; reflexivity|].
  repeat split; vm_compute; reflexivity.
Qed.

(** C9, amended. Every preflight response, and every response with a
    success status to a request that is not for the root path, carries
    [X-Content-Type-Options: nosniff], [X-Frame-Options: DENY] and
    [Referrer-Policy: strict-origin-when-cross-origin].  The landing page
    served for the root path has status 200 and carries [Content-Type] and
    [Cache-Control] only. *)
Theorem C9_security_headers request env upstream resp :
  result upstream (FixedOwner.fetch request env) = inl resp →
  (is_preflight request = true → security_headers (resp_headers resp))
  ∧ (content_path request = true → 200 ≤ status resp ≤ 299 →
     security_headers (resp_headers resp))
  ∧ (is_preflight request = false → is_root request = true →
     status resp = 200
     ∧ resp_headers resp
       = headers_set "Cache-Control" "public, max-age=86400"
           (headers_set "Content-Type" "text/html;charset=UTF-8" ∅)).
Proof.
  intros Hres. split; [|split].
  - intros Hm. unfold is_preflight in Hm. apply String.eqb_eq in Hm.
    unfold result in Hres.
    rewrite (FixedOwner_run_preflight _ _ upstream Hm) in Hres.
    cbn [snd] in Hres. injection Hres as <-. apply handleOptions_security.
  - intros Hc. by apply (FixedOwner_content_success request env upstream).
  - intros Hm Hp. unfold result in Hres.
    rewrite (FixedOwner_run_root _ _ upstream Hm Hp) in Hres.
    cbn [snd] in Hres. injection Hres as <-.
    split; [reflexivity|].
    reflexivity.
Qed.

Lemma C9_security_headers_witness :
  security_headers
    (applyHeaders Examples.upstream_headers Examples.env_owner_only).
Proof.
  destruct (C9_security_headers Examples.get_file Examples.env_owner_only
              (Examples.answers Examples.png_200)
              {| status := 200; statusText := "OK";
                 resp_headers :=
                   applyHeaders Examples.upstream_headers
                     Examples.env_owner_only;
                 body := Some "PNG-bytes" |})
    as (_ & Hsuccess & _).
  - vm_compute. reflexivity.
  - apply Hsuccess; [vm_compute; reflexivity|].
    split; vm_compute; discriminate.
Defined.

(** * Further properties of the code *)

(** ** Splitting and joining the path *)

Lemma split_on_cons sep s : ∃ x xs, split_on sep s = x :: xs.
Proof.
  destruct s as [|c r]; cbn [split_on]; [eauto|].
  destruct (Ascii.eqb c sep); [eauto|].
  destruct (split_on sep r); eauto.
Qed.

(** Splitting gives one piece more than there are separators; it never
    gives an empty array, not even for the empty string. *)
Theorem split_on_length sep s :
  length (split_on sep s) = S (count_char sep s).
Proof.
  induction s as [|c r IH]; cbn [split_on count_char]; [reflexivity|].
  destruct (Ascii.eqb c sep); cbn [length]; [by rewrite IH|].
  destruct (split_on sep r) as [|x xs]; [discriminate IH | exact IH].
Qed.

(** Joining the pieces with the separator gives the string back. *)
Theorem join_split_on sep s :
  join (String sep EmptyString) (split_on sep s) = s.
Proof.
  unfold join. induction s as [|c r IH]; cbn [split_on]; [reflexivity|].
  destruct (split_on_cons sep r) as (x & xs & Hr). rewrite Hr in IH |- *.
  destruct (Ascii.eqb_spec c sep) as [-> | Hne].
  - change (String.concat (String sep EmptyString) (EmptyString :: x :: xs))
      with (String sep (String.concat (String sep EmptyString) (x :: xs))).
    by rewrite IH.
  - destruct xs as [|y ys].
    + cbn [String.concat] in IH |- *. by rewrite IH.
    + change (String.concat (String sep EmptyString) (String c x :: y :: ys))
        with (String c (String.concat (String sep EmptyString) (x :: y :: ys))).
      by rewrite IH.
Qed.

(** No piece holds the separator. *)
Theorem split_on_pieces sep s :
  Forall (λ piece, count_char sep piece = 0%nat) (split_on sep s).
Proof.
  induction s as [|c r IH]; cbn [split_on].
  - by repeat constructor.
  - destruct (Ascii.eqb c sep) eqn:Hc; [by constructor|].
    destruct (split_on sep r) as [|x xs]; [by repeat constructor; cbn; rewrite Hc|].
    inversion IH as [|? ? Hx Hxs]; subst. constructor; [|exact Hxs].
    cbn [count_char]. by rewrite Hc.
Qed.

(** ** Stripping the leading slashes *)

Lemma strip_leading_slashes_slash s :
  strip_leading_slashes (String "/" s) = strip_leading_slashes s.
Proof. reflexivity. Qed.

(** The stripped path is the path without its run of leading slashes: the
    path is that run followed by the stripped path, and the stripped path
    does not start with a slash. *)
Theorem strip_leading_slashes_spec s :
  ∃ n, s = slashes n +:+ strip_leading_slashes s
       ∧ ∀ r, strip_leading_slashes s ≠ String "/" r.
Proof.
  induction s as [|c r IH].
  - exists 0%nat. split; [reflexivity | discriminate].
  - destruct (Ascii.eqb_spec c "/") as [-> | Hne].
    + destruct IH as (n & Hn & Hns). exists (S n).
      rewrite strip_leading_slashes_slash. split; [|exact Hns].
      change (String "/" r = String "/" (slashes n +:+ strip_leading_slashes r)).
      by rewrite <- Hn.
    + exists 0%nat. cbn [strip_leading_slashes].
      destruct (Ascii.eqb_spec c "/") as [|_]; [contradiction|].
      split; [reflexivity|]. intros r' [= Hc _]. contradiction.
Qed.

(** Stripping twice is stripping once. *)
Theorem strip_leading_slashes_idemp s :
  strip_leading_slashes (strip_leading_slashes s) = strip_leading_slashes s.
Proof.
  induction s as [|c r IH]; [reflexivity|].
  cbn [strip_leading_slashes].
  destruct (Ascii.eqb c "/") eqn:Hc; [exact IH|].
  cbn [strip_leading_slashes]. by rewrite Hc.
Qed.

(** ** The path of [cdn-worker.js], from the inbound URL to the outbound one *)

Lemma getToken_with_pathname p request env :
  getToken (with_pathname p request) env = getToken request env.
Proof. reflexivity. Qed.

Lemma strip_leading_slashes_slashes n s :
  strip_leading_slashes (slashes n +:+ s) = strip_leading_slashes s.
Proof. induction n as [|n IH]; [reflexivity | exact IH]. Qed.

Lemma eqb_slashes_root n p :
  String.eqb p "/" || String.eqb p "" = false →
  String.eqb (slashes n +:+ p) "/" || String.eqb (slashes n +:+ p) "" = false.
Proof.
  intros Hp. destruct n as [|[|n]]; [exact Hp| |reflexivity].
  destruct p as [|c r]; [discriminate Hp | reflexivity].
Qed.

Lemma upstream_url_joined request env owner :
  (3 ≤ length (FixedOwner.segments request))%nat →
  GITHUB_OWNER env = Some owner →
  FixedOwner.upstream_url request env
  = "https://raw.githubusercontent.com/" +:+ owner +:+ "/"
    +:+ strip_leading_slashes (pathname (req_url request)).
Proof.
  intros Hl Ho. unfold FixedOwner.upstream_url. rewrite Ho.
  rewrite <- (join_split_on "/" (strip_leading_slashes _)).
  fold (FixedOwner.segments request).
  destruct (FixedOwner.segments request) as [|a [|b [|c rest]]];
    cbn [length] in Hl; try lia.
  reflexivity.
Qed.

Lemma proxied_inv request env :
  FixedOwner.proxied request env = true →
  content_path request = true
  ∧ truthy (GITHUB_OWNER env) = true
  ∧ (3 ≤ length (FixedOwner.segments request))%nat.
Proof.
  unfold FixedOwner.proxied. intros [[Hc Ho]%andb_prop Hl]%andb_prop.
  repeat split; [assumption..|]. by apply Nat.ltb_ge, negb_true_iff.
Qed.

(** The address [cdn-worker.js] fetches is the raw-content host, the
    configured owner, and the inbound path without its leading slashes:
    splitting the path and joining repository, branch and file parts again
    changes nothing. *)
Theorem FixedOwner_outbound_url request env upstream owner :
  FixedOwner.proxied request env = true →
  GITHUB_OWNER env = Some owner →
  ∃ o, issued upstream (FixedOwner.fetch request env) = [o]
       ∧ out_url o
         = "https://raw.githubusercontent.com/" +:+ owner +:+ "/"
           +:+ strip_leading_slashes (pathname (req_url request)).
Proof.
  intros Hp Ho. unfold issued.
  rewrite (FixedOwner_run_proxied _ _ upstream Hp). cbn [fst].
  eexists. split; [reflexivity|]. cbn [out_url].
  apply upstream_url_joined; [|exact Ho]. by apply proxied_inv in Hp as (_ & _ & Hl).
Qed.

Lemma FixedOwner_outbound_url_witness :
  ∃ o, issued (Examples.answers Examples.png_200)
         (FixedOwner.fetch Cases.get_double_slash Examples.env_owner_only) = [o]
       ∧ out_url o
         = "https://raw.githubusercontent.com/octocat/site/main/img/logo.png".
Proof.
  apply (FixedOwner_outbound_url Cases.get_double_slash Examples.env_owner_only
           (Examples.answers Examples.png_200) "octocat").
  - vm_compute. reflexivity.
  - reflexivity.
Defined.

(** With the owner configured, [cdn-worker.js] accepts a content path
    exactly when the path, without its leading slashes, holds at least two
    slashes: with fewer it answers 400 and fetches nothing, otherwise it
    issues its one outbound request. *)
Theorem FixedOwner_path_check_slashes request env upstream :
  content_path request = true →
  truthy (GITHUB_OWNER env) = true →
  ((count_char "/" (strip_leading_slashes (pathname (req_url request))) < 2)%nat →
     ∃ resp, run upstream (FixedOwner.fetch request env) = ([], inl resp)
             ∧ status resp = 400)
  ∧ ((2 ≤ count_char "/" (strip_leading_slashes (pathname (req_url request))))%nat →
     length (issued upstream (FixedOwner.fetch request env)) = 1%nat).
Proof.
  intros Hc Ho.
  pose proof (split_on_length "/" (strip_leading_slashes (pathname (req_url request))))
    as Hlen. fold (FixedOwner.segments request) in Hlen.
  split; intros Hn.
  - rewrite (FixedOwner_run_short_path _ _ upstream Hc Ho) by lia.
    eexists. split; reflexivity.
  - apply FixedOwner_issued_one. unfold FixedOwner.proxied.
    rewrite Hc, Ho. cbn [andb]. apply negb_true_iff, Nat.ltb_ge. lia.
Qed.

Lemma FixedOwner_path_check_slashes_witness :
  ∃ resp,
    run (Examples.answers Examples.png_200)
      (FixedOwner.fetch Examples.get_short_path Examples.env_owner_only)
    = ([], inl resp)
    ∧ status resp = 400.
Proof.
  destruct (FixedOwner_path_check_slashes Examples.get_short_path
              Examples.env_owner_only (Examples.answers Examples.png_200))
    as [Hshort _].
  - vm_compute. reflexivity.
  - reflexivity.
  - apply Hshort. vm_compute. lia.
Defined.

(** [cdn-worker.js] ignores extra leading slashes: a content-path request
    and the same request with more slashes in front of its path get the
    same outbound request and the same response. *)
Theorem FixedOwner_leading_slashes request env upstream n :
  content_path request = true →
  run upstream
    (FixedOwner.fetch
       (with_pathname (slashes n +:+ pathname (req_url request)) request) env)
  = run upstream (FixedOwner.fetch request env).
Proof.
  intros [Hm Hp]%content_path_inv.
  unfold FixedOwner.fetch. cbv zeta.
  rewrite getToken_with_pathname.
  cbn [with_pathname req_method req_url pathname origin].
  rewrite Hm, Hp, (eqb_slashes_root n _ Hp), strip_leading_slashes_slashes.
  reflexivity.
Qed.

Lemma FixedOwner_leading_slashes_witness :
  run (Examples.answers Examples.png_200)
    (FixedOwner.fetch
       (with_pathname "///site/main/img/logo.png" Examples.get_file)
       Examples.env_owner_only)
  = run (Examples.answers Examples.png_200)
      (FixedOwner.fetch Examples.get_file Examples.env_owner_only).
Proof.
  apply (FixedOwner_leading_slashes Examples.get_file Examples.env_owner_only
           (Examples.answers Examples.png_200) 2).
  vm_compute. reflexivity.
Defined.

(** The two scripts agree once the owner is written into the path: what
    [cdn-worker.js] does for a path it accepts, with owner [owner]
    configured, is what the other script does for [/owner/] followed by
    that path without its leading slashes. *)
Theorem FixedOwner_as_OwnerInPath request env upstream owner :
  FixedOwner.proxied request env = true →
  GITHUB_OWNER env = Some owner →
  run upstream
    (OwnerInPath.fetch
       (with_pathname
          ("/" +:+ owner +:+ "/"
           +:+ strip_leading_slashes (pathname (req_url request)))
          request) env)
  = run upstream (FixedOwner.fetch request env).
Proof.
  intros Hp Ho.
  pose proof (proxied_inv _ _ Hp) as (Hc & Htr & Hl).
  rewrite (FixedOwner_run_proxied _ _ upstream Hp).
  rewrite OwnerInPath_run_content.
  - cbv zeta. rewrite getToken_with_pathname.
    unfold OwnerInPath.upstream_url.
    cbn [with_pathname req_url pathname].
    rewrite (upstream_url_joined _ _ _ Hl Ho). reflexivity.
  - apply content_path_inv in Hc as [Hm _].
    unfold content_path, is_preflight, is_root.
    cbn [with_pathname req_method req_url pathname]. rewrite Hm.
    rewrite Ho in Htr. cbn [truthy] in Htr.
    destruct owner as [|c o']; [discriminate Htr | reflexivity].
Qed.

Lemma FixedOwner_as_OwnerInPath_witness :
  run (Examples.answers Examples.png_200)
    (OwnerInPath.fetch
       (with_pathname "/octocat/site/main/img/logo.png" Examples.get_file)
       Examples.env_owner_only)
  = run (Examples.answers Examples.png_200)
      (FixedOwner.fetch Examples.get_file Examples.env_owner_only).
Proof.
  apply (FixedOwner_as_OwnerInPath Examples.get_file Examples.env_owner_only
           (Examples.answers Examples.png_200) "octocat").
  - vm_compute. reflexivity.
  - reflexivity.
Defined.

(** ** The remaining sources of the token *)

(** With the header token absent or empty and the flag exactly [true], a
    query parameter [token] with a non-empty value [T] is the token, also
    when a [GITHUB_TOKEN] is configured; every outbound request carries
    [Authorization: token T]. *)
Theorem getToken_query_enabled request env upstream T :
  truthy (headers_get "X-GitHub-Token" (req_headers request)) = false →
  ALLOW_QUERY_PARAM_TOKEN env = Some "true" →
  searchParams_get "token" (searchParams (req_url request)) = Some T →
  T ≠ "" →
  getToken request env = Some T
  ∧ (∀ o, o ∈ issued upstream (FixedOwner.fetch request env) →
       out_headers o = headers_set "Authorization" ("token " +:+ T) ∅)
  ∧ (∀ o, o ∈ issued upstream (OwnerInPath.fetch request env) →
       out_headers o = headers_set "Authorization" ("token " +:+ T) ∅).
Proof.
  intros Hh Hflag Hq HT.
  assert (Htok : getToken request env = Some T).
  { rewrite (getToken_no_header _ _ Hh), Hflag.
    rewrite (searchParams_get_has _ _ _ Hq). exact Hq. }
  assert (Hauth : authorization_headers (getToken request env)
                  = headers_set "Authorization" ("token " +:+ T) ∅).
  { rewrite Htok. unfold authorization_headers. by rewrite (truthy_Some _ HT). }
  split; [exact Htok|]. split; intros o Ho.
  - apply FixedOwner_issued_headers in Ho. by rewrite Ho.
  - destruct (content_path request) eqn:Hc.
    + unfold issued in Ho. rewrite (OwnerInPath_run_content _ _ upstream Hc) in Ho.
      cbn [fst] in Ho. apply list_elem_of_singleton in Ho as ->. exact Hauth.
    + unfold issued, OwnerInPath.fetch in Ho. cbv zeta in Ho.
      unfold content_path, is_preflight, is_root in Hc.
      destruct (String.eqb (req_method request) "OPTIONS");
        [by apply not_elem_of_nil in Ho|].
      destruct (_ || _); [by apply not_elem_of_nil in Ho | discriminate Hc].
Qed.

Lemma getToken_query_enabled_witness :
  getToken Examples.get_file_query_token Examples.env_query_allowed
  = Some "from_query".
Proof.
  destruct (getToken_query_enabled Examples.get_file_query_token
              Examples.env_query_allowed (Examples.answers Examples.png_200)
              "from_query") as [Htok _].
  - vm_compute. reflexivity.
  - reflexivity.
  - reflexivity.
  - discriminate.
  - exact Htok.
Defined.

(** A request is anonymous when no source gives a token: header absent or
    empty, no [GITHUB_TOKEN] (or an empty one), and the query parameter
    either not allowed or not there.  [getToken] then returns [null] and
    the outbound request has no header at all. *)
Theorem getToken_anonymous request env upstream :
  truthy (headers_get "X-GitHub-Token" (req_headers request)) = false →
  truthy (GITHUB_TOKEN env) = false →
  strict_eq (ALLOW_QUERY_PARAM_TOKEN env) "true" = false
  ∨ searchParams_has "token" (searchParams (req_url request)) = false →
  getToken request env = None
  ∧ (∀ o, o ∈ issued upstream (FixedOwner.fetch request env) →
       out_headers o = ∅).
Proof.
  intros Hh Hg Hq.
  assert (Htok : getToken request env = None).
  { rewrite (getToken_no_header _ _ Hh), Hg.
    destruct Hq as [-> | ->]; [reflexivity|].
    by rewrite andb_false_r. }
  split; [exact Htok|]. intros o Ho.
  apply FixedOwner_issued_headers in Ho. by rewrite Ho, Htok.
Qed.

Lemma getToken_anonymous_witness :
  getToken Examples.get_file_query_token Examples.env_owner_only = None.
Proof.
  destruct (getToken_anonymous Examples.get_file_query_token
              Examples.env_owner_only (Examples.answers Examples.png_200))
    as [Htok _].
  - vm_compute. reflexivity.
  - reflexivity.
  - left. reflexivity.
  - exact Htok.
Defined.

(** [getToken] invents nothing: a token it returns is the non-empty value
    of the [X-GitHub-Token] header, or the value of the query parameter
    [token] with the flag exactly [true], or the non-empty configured
    [GITHUB_TOKEN].  Only the query parameter can give an empty token. *)
Theorem getToken_provenance request env t :
  getToken request env = Some t →
  (headers_get "X-GitHub-Token" (req_headers request) = Some t ∧ t ≠ "")
  ∨ (ALLOW_QUERY_PARAM_TOKEN env = Some "true"
     ∧ searchParams_get "token" (searchParams (req_url request)) = Some t)
  ∨ (GITHUB_TOKEN env = Some t ∧ t ≠ "").
Proof.
  unfold getToken. cbv zeta.
  destruct (truthy (headers_get _ _)) eqn:Hh.
  - intros Ht. left. rewrite Ht in Hh.
    apply truthy_true_inv in Hh as (s & [= <-] & Hs). by split.
  - assert (Henv : (if truthy (GITHUB_TOKEN env) then GITHUB_TOKEN env else None)
                   = Some t → GITHUB_TOKEN env = Some t ∧ t ≠ "").
    { destruct (truthy (GITHUB_TOKEN env)) eqn:Hg; [|discriminate].
      intros Ht. rewrite Ht in Hg.
      apply truthy_true_inv in Hg as (s & [= <-] & Hs). by split. }
    destruct (ALLOW_QUERY_PARAM_TOKEN env) as [flag|] eqn:Hflag; cbn [strict_eq];
      [|intros Ht; right; right; by apply Henv].
    destruct (String.eqb_spec flag "true") as [-> | _];
      [|intros Ht; right; right; by apply Henv].
    destruct (searchParams_has _ _);
      [|intros Ht; right; right; by apply Henv].
    intros Ht. right. left. by split.
Qed.

Lemma getToken_provenance_witness :
  (headers_get "X-GitHub-Token" (req_headers Examples.get_file_query_token)
   = Some "from_env" ∧ "from_env" ≠ "")
  ∨ (ALLOW_QUERY_PARAM_TOKEN Examples.env_static_token = Some "true"
     ∧ searchParams_get "token"
         (searchParams (req_url Examples.get_file_query_token))
       = Some "from_env")
  ∨ (GITHUB_TOKEN Examples.env_static_token = Some "from_env"
     ∧ "from_env" ≠ "").
Proof.
  apply (getToken_provenance Examples.get_file_query_token
           Examples.env_static_token "from_env").
  vm_compute. reflexivity.
Defined.

(** ** The failures of [cdn-worker.js] and of the fetch *)

(** Without a [GITHUB_OWNER] (unset or empty) every content-path request
    is answered 500 with the text naming the variable, whatever its path,
    and nothing is fetched: the owner is checked before the path. *)
Theorem FixedOwner_owner_missing request env upstream :
  content_path request = true →
  truthy (GITHUB_OWNER env) = false →
  ∃ resp, run upstream (FixedOwner.fetch request env) = ([], inl resp)
          ∧ status resp = 500
          ∧ body resp = Some "GITHUB_OWNER environment variable not set.".
Proof.
  intros [Hm Hp]%content_path_inv Ho.
  unfold FixedOwner.fetch. cbv zeta. rewrite Hm, Hp, Ho.
  eexists. repeat split.
Qed.

Lemma FixedOwner_owner_missing_witness :
  ∃ resp,
    run (Examples.answers Examples.png_200)
      (FixedOwner.fetch Examples.get_short_path Cases.env_no_owner)
    = ([], inl resp)
    ∧ status resp = 500
    ∧ body resp = Some "GITHUB_OWNER environment variable not set.".
Proof.
  apply (FixedOwner_owner_missing Examples.get_short_path Cases.env_no_owner
           (Examples.answers Examples.png_200)).
  - vm_compute. reflexivity.
  - reflexivity.
Defined.

(** When the outbound fetch throws, the handler answers 500 with the text
    [Proxy request failed: ] followed by the error's message; it has
    issued that one request and does not try again.  Both scripts. *)
Theorem transport_failure request env upstream e :
  (∀ o, upstream o = Rejected e) →
  (FixedOwner.proxied request env = true →
     ∃ o resp, run upstream (FixedOwner.fetch request env) = ([o], inl resp)
               ∧ status resp = 500
               ∧ body resp = Some ("Proxy request failed: " +:+ message e)
               ∧ resp_headers resp = plain_text_headers)
  ∧ (content_path request = true →
     ∃ o resp, run upstream (OwnerInPath.fetch request env) = ([o], inl resp)
               ∧ status resp = 500
               ∧ body resp = Some ("Proxy request failed: " +:+ message e)
               ∧ resp_headers resp = plain_text_headers).
Proof.
  intros Hup. split.
  - intros Hp. rewrite (FixedOwner_run_proxied _ _ upstream Hp).
    cbv zeta. rewrite Hup. eexists. eexists. repeat split.
  - intros Hc. rewrite (OwnerInPath_run_content _ _ upstream Hc).
    cbv zeta. rewrite Hup. eexists. eexists. repeat split.
Qed.

Lemma transport_failure_witness :
  ∃ o resp,
    run Cases.unreachable
      (FixedOwner.fetch Examples.get_file Examples.env_owner_only)
    = ([o], inl resp)
    ∧ status resp = 500
    ∧ body resp = Some "Proxy request failed: Network connection lost."
    ∧ resp_headers resp = plain_text_headers.
Proof.
  destruct (transport_failure Examples.get_file Examples.env_owner_only
              Cases.unreachable {| message := "Network connection lost." |})
    as [Hfixed _].
  - intros o. reflexivity.
  - apply Hfixed. vm_compute. reflexivity.
Defined.

(** ** The landing page *)

Lemma append_assoc_string (a b c : string) :
  (a +:+ b) +:+ c = a +:+ (b +:+ c).
Proof.
  induction a as [|x a IH]; [reflexivity|].
  change (String x ((a +:+ b) +:+ c) = String x (a +:+ (b +:+ c))).
  by rewrite IH.
Qed.

Lemma FixedOwner_landing_html_example url_origin :
  contains (url_origin +:+ "/&lt;repo&gt;/&lt;branch&gt;/&lt;path-to-file&gt;")
           (FixedOwner.landing_html url_origin).
Proof.
  exists (String.substring 0 1086 (FixedOwner.landing_html "")),
         (String.substring 1135 931 (FixedOwner.landing_html "")).
  rewrite append_assoc_string. vm_compute. reflexivity.
Qed.

Lemma OwnerInPath_landing_html_example url_origin :
  contains
    (url_origin +:+ "/&lt;owner&gt;/&lt;repo&gt;/&lt;branch&gt;/&lt;path-to-file&gt;")
    (OwnerInPath.landing_html url_origin).
Proof.
  exists (String.substring 0 1084 (OwnerInPath.landing_html "")),
         (String.substring 1147 805 (OwnerInPath.landing_html "")).
  rewrite append_assoc_string. vm_compute. reflexivity.
Qed.

(** A request for the root path that is not a preflight is answered by
    [cdn-worker.js] without any fetch, with status 200, an HTML content
    type, a one-day [Cache-Control] whatever [CACHE_TIME] is configured,
    and a page that shows the usage format with the request's own origin:
    the origin followed by the repository, branch and file place holders. *)
Theorem FixedOwner_landing_page request env upstream :
  is_preflight request = false →
  is_root request = true →
  ∃ resp html,
    run upstream (FixedOwner.fetch request env) = ([], inl resp)
    ∧ status resp = 200
    ∧ headers_get "Content-Type" (resp_headers resp)
      = Some "text/html;charset=UTF-8"
    ∧ headers_get "Cache-Control" (resp_headers resp)
      = Some "public, max-age=86400"
    ∧ body resp = Some html
    ∧ contains (origin (req_url request)
                +:+ "/&lt;repo&gt;/&lt;branch&gt;/&lt;path-to-file&gt;") html.
Proof.
  intros Hm Hp. rewrite (FixedOwner_run_root _ _ upstream Hm Hp).
  eexists. eexists. split; [reflexivity|]. split; [reflexivity|].
  split; [|split; [|split; [reflexivity|]]].
  - change (headers_get "Content-Type" landing_headers
            = Some "text/html;charset=UTF-8").
    unfold landing_headers.
    rewrite headers_get_set_other by names_differ.
    apply headers_get_set_same.
  - change (headers_get "Cache-Control" landing_headers
            = Some "public, max-age=86400").
    apply headers_get_set_same.
  - apply FixedOwner_landing_html_example.
Qed.

Lemma FixedOwner_landing_page_witness :
  ∃ resp html,
    run (Examples.answers Examples.png_200)
      (FixedOwner.fetch Examples.get_root Examples.env_one_hour)
    = ([], inl resp)
    ∧ status resp = 200
    ∧ headers_get "Content-Type" (resp_headers resp)
      = Some "text/html;charset=UTF-8"
    ∧ headers_get "Cache-Control" (resp_headers resp)
      = Some "public, max-age=86400"
    ∧ body resp = Some html
    ∧ contains ("https://cdn.example.workers.dev"
                +:+ "/&lt;repo&gt;/&lt;branch&gt;/&lt;path-to-file&gt;") html.
Proof.
  apply (FixedOwner_landing_page Examples.get_root Examples.env_one_hour
           (Examples.answers Examples.png_200)).
  - reflexivity.
  - reflexivity.
Defined.

Lemma OwnerInPath_run_root request env upstream :
  is_preflight request = false →
  is_root request = true →
  run upstream (OwnerInPath.fetch request env)
  = ([], inl (make_Response
                (BodyString (OwnerInPath.landing_html (origin (req_url request))))
                (init_of_headers landing_headers))).
Proof.
  unfold is_preflight, is_root. intros Hm Hp.
  unfold OwnerInPath.fetch. cbv zeta. rewrite Hm, Hp. reflexivity.
Qed.

(** The landing page of the second script: no fetch, status 200, and a
    page whose usage format starts with the request's origin and names
    the owner as the first place holder of the path. *)
Theorem OwnerInPath_landing_page request env upstream :
  is_preflight request = false →
  is_root request = true →
  ∃ resp html,
    run upstream (OwnerInPath.fetch request env) = ([], inl resp)
    ∧ status resp = 200
    ∧ body resp = Some html
    ∧ contains
        (origin (req_url request)
         +:+ "/&lt;owner&gt;/&lt;repo&gt;/&lt;branch&gt;/&lt;path-to-file&gt;")
        html.
Proof.
  intros Hm Hp. rewrite (OwnerInPath_run_root _ _ upstream Hm Hp).
  eexists. eexists. repeat split. apply OwnerInPath_landing_html_example.
Qed.

Lemma OwnerInPath_landing_page_witness :
  ∃ resp html,
    run (Examples.answers Examples.png_200)
      (OwnerInPath.fetch Examples.get_root Examples.env_one_hour)
    = ([], inl resp)
    ∧ status resp = 200
    ∧ body resp = Some html
    ∧ contains
        ("https://cdn.example.workers.dev"
         +:+ "/&lt;owner&gt;/&lt;repo&gt;/&lt;branch&gt;/&lt;path-to-file&gt;")
        html.
Proof.
  apply (OwnerInPath_landing_page Examples.get_root Examples.env_one_hour
           (Examples.answers Examples.png_200)).
  - reflexivity.
  - reflexivity.
Defined.

(** ** How the header rewrite composes *)

Lemma applyHeaders_union (h : Headers) env :
  applyHeaders h env = applyHeaders ∅ env ∪ h.
Proof.
  unfold applyHeaders, headers_set. cbv zeta.
  rewrite <- !insert_union_l. by rewrite (left_id_L ∅ (∪)).
Qed.

Lemma applyHeaders_dom env :
  dom (applyHeaders ∅ env) = list_to_set (lower <$> rewritten_names).
Proof.
  unfold applyHeaders, headers_set, rewritten_names. cbv zeta.
  rewrite !dom_insert_L, dom_empty_L.
  cbn [fmap list_fmap list_to_set]. set_solver.
Qed.

(** Rewriting twice is rewriting once, with the environment of the last
    rewrite: the seven values of an earlier rewrite are overwritten and the
    other headers are the original ones.  In particular the rewrite is
    idempotent. *)
Theorem applyHeaders_twice (h : Headers) env1 env2 :
  applyHeaders (applyHeaders h env1) env2 = applyHeaders h env2.
Proof.
  rewrite (applyHeaders_union (applyHeaders h env1)), (applyHeaders_union h env1),
    (applyHeaders_union h env2).
  apply map_eq. intros i. rewrite !lookup_union.
  destruct (applyHeaders ∅ env2 !! i) as [v|] eqn:H2;
    [by rewrite !union_Some_l|].
  apply not_elem_of_dom in H2. rewrite applyHeaders_dom in H2.
  rewrite <- (applyHeaders_dom env1) in H2. apply not_elem_of_dom in H2.
  rewrite H2. by destruct (h !! i).
Qed.

(** The rewrite adds the seven names and removes none: the rewritten
    headers are the upstream's names together with the seven. *)
Theorem applyHeaders_names (h : Headers) env :
  dom (applyHeaders h env) = list_to_set (lower <$> rewritten_names) ∪ dom h.
Proof. by rewrite applyHeaders_union, dom_union_L, applyHeaders_dom. Qed.

(** ** What a content-path request can be answered with *)

(** [cdn-worker.js] answers a content-path request in one of two ways.
    Either the upstream answered 2xx and the response is that answer with
    its status, status text and body and the rewritten headers; or the
    response has a non-success status and carries the plain-text content
    type only: no upstream header, no CORS or cache header.  An upstream
    failure is never turned into a success status. *)
Theorem FixedOwner_response_kinds request env upstream resp :
  content_path request = true →
  result upstream (FixedOwner.fetch request env) = inl resp →
  (∃ o r, issued upstream (FixedOwner.fetch request env) = [o]
          ∧ upstream o = Resolved r ∧ ok r = true
          ∧ resp = {| status := status r; statusText := statusText r;
                      resp_headers := applyHeaders (resp_headers r) env;
                      body := body r |})
  ∨ (¬ (200 ≤ status resp ≤ 299) ∧ resp_headers resp = plain_text_headers).
Proof.
  intros Hc. unfold result, issued.
  destruct (FixedOwner.proxied request env) eqn:Hp.
  - rewrite (FixedOwner_run_proxied _ _ upstream Hp). cbv zeta. cbn [fst snd].
    intros [= <-].
    destruct (settle_kinds (upstream
      {| out_url := FixedOwner.upstream_url request env; out_method := "GET";
         out_headers := authorization_headers (getToken request env) |}) env)
      as [(r & Hr & Hok & Hs) | Herr]; [left | by right].
    eexists. exists r. by repeat split.
  - destruct (not_proxied_cases _ _ Hc Hp) as [Ho | [Ho Hl]].
    + rewrite (FixedOwner_run_no_owner _ _ upstream Hc Ho). cbn [snd].
      intros [= <-]. right. split; [cbn; lia | reflexivity].
    + rewrite (FixedOwner_run_short_path _ _ upstream Hc Ho Hl). cbn [snd].
      intros [= <-]. right. split; [cbn; lia | reflexivity].
Qed.

Lemma FixedOwner_response_kinds_witness :
  ¬ (200 ≤ 404 ≤ 299)
  ∧ resp_headers
      (make_Response
         (BodyString "File not found. Check repository, branch, and file path.")
         (init_of_status 404))
    = plain_text_headers.
Proof.
  destruct (FixedOwner_response_kinds Examples.get_file Examples.env_owner_only
              (Examples.answers Cases.not_found_404)
              (make_Response
                 (BodyString "File not found. Check repository, branch, and file path.")
                 (init_of_status 404)))
    as [(o & r & _ & Hr & Hok & _) | Herr].
  - vm_compute. reflexivity.
  - vm_compute. reflexivity.
  - injection Hr as <-. discriminate Hok.
  - exact Herr.
Defined.

(** Neither script ever lets an error escape or fetches twice: whatever
    the request, the bindings and the upstream, the handler returns a
    response and has issued at most one outbound request; for a preflight
    or a root-path request it has issued none. *)
Theorem handlers_answer_with_at_most_one_fetch request env upstream :
  (∃ resp, result upstream (FixedOwner.fetch request env) = inl resp)
  ∧ (length (issued upstream (FixedOwner.fetch request env)) ≤ 1)%nat
  ∧ (∃ resp, result upstream (OwnerInPath.fetch request env) = inl resp)
  ∧ (length (issued upstream (OwnerInPath.fetch request env)) ≤ 1)%nat
  ∧ (content_path request = false →
     issued upstream (FixedOwner.fetch request env) = []
     ∧ issued upstream (OwnerInPath.fetch request env) = []).
Proof.
  assert (Hnc : content_path request = false →
                (∃ resp, run upstream (FixedOwner.fetch request env)
                         = ([], inl resp))
                ∧ (∃ resp, run upstream (OwnerInPath.fetch request env)
                           = ([], inl resp))).
  { unfold content_path, is_preflight, is_root, FixedOwner.fetch,
      OwnerInPath.fetch. cbv zeta. intros Hc.
    destruct (String.eqb (req_method request) "OPTIONS"); [by eauto|].
    destruct (_ || _); [by eauto | discriminate Hc]. }
  destruct (content_path request) eqn:Hc.
  - unfold result, issued.
    rewrite (OwnerInPath_run_content _ _ upstream Hc). cbv zeta. cbn [fst snd length].
    destruct (FixedOwner.proxied request env) eqn:Hp.
    + rewrite (FixedOwner_run_proxied _ _ upstream Hp). cbv zeta.
      cbn [fst snd length]. repeat split; eauto. all: discriminate.
    + destruct (not_proxied_cases _ _ Hc Hp) as [Ho | [Ho Hl]].
      * rewrite (FixedOwner_run_no_owner _ _ upstream Hc Ho).
        cbn [fst snd length]. repeat split; eauto; try discriminate; lia.
      * rewrite (FixedOwner_run_short_path _ _ upstream Hc Ho Hl).
        cbn [fst snd length]. repeat split; eauto; try discriminate; lia.
  - destruct (Hnc eq_refl) as [[r1 H1] [r2 H2]].
    unfold result, issued. rewrite H1, H2. cbn [fst snd length].
    repeat split; eauto.
Qed.

(** ** The error mapper on the statuses it can answer *)

(** For an upstream status from 300 to 599 other than 304 the error
    mapper returns a response: 404 with the fixed not-found text for 404,
    403 with the fixed access-denied text for 401 and 403, and otherwise
    the upstream status with the text made of the status code and the
    status text.  The response carries the plain-text content type only,
    and is the same whatever the upstream body and headers were. *)
Theorem handleGitHubError_mapping r :
  300 ≤ status r ≤ 599 →
  status r ≠ 304 →
  ∃ resp,
    handleGitHubError r = inl resp
    ∧ resp_headers resp = plain_text_headers
    ∧ (status r = 404 →
       status resp = 404
       ∧ body resp
         = Some "File not found. Check repository, branch, and file path.")
    ∧ (status r = 401 ∨ status r = 403 →
       status resp = 403
       ∧ body resp
         = Some "Access denied. Your token may be invalid or lack permissions.")
    ∧ (status r ≠ 404 → status r ≠ 401 → status r ≠ 403 →
       status resp = status r
       ∧ body resp
         = Some ("GitHub API error: " +:+ number_toString (status r)
                 +:+ " " +:+ statusText r))
    ∧ (∀ upstream_body upstream_headers,
         handleGitHubError
           {| status := status r; statusText := statusText r;
              resp_headers := upstream_headers; body := upstream_body |}
         = inl resp).
Proof.
  intros Hr H304.
  destruct (handleGitHubError_returns r Hr H304) as (resp & Hresp & Hh & H).
  exists resp. split; [exact Hresp|]. split; [exact Hh|].
  destruct H as (H1 & H2 & H3). repeat split; try (by apply H1);
    try (by apply H2); try (by apply H3).
  intros b h. rewrite <- Hresp. reflexivity.
Qed.

Lemma handleGitHubError_mapping_witness :
  ∃ resp,
    handleGitHubError Examples.bad_gateway_502 = inl resp
    ∧ status resp = 502
    ∧ body resp = Some "GitHub API error: 502 Bad Gateway".
Proof.
  destruct (handleGitHubError_mapping Examples.bad_gateway_502)
    as (resp & Hresp & _ & _ & _ & Hother & _).
  - vm_compute. split; discriminate.
  - discriminate.
  - exists resp. split; [exact Hresp|]. apply Hother; discriminate.
Defined.
